(** * end2you: the audiovisual data generator

    A shallow embedding of [end2you/data_generator/audiovisual_generator.py]
    (class [AudioVisualGenerator]) and the properties of its segment aligner
    [_get_samples] and of [serialize_samples].

    Conventions of the embedding.
    - A Python float ([np.float32] / [np.float64]) is an exact rational [Q]:
      [astype(np.float32)] is the identity, and the arithmetic of the source
      ([*], [-], [mean], [np.around], [int]) is the exact one.  Every concrete
      input used below is dyadic and small, so the floating-point computation
      of the source is exact on it.
    - A Python [int] is a [Z].
    - An exception is a value of [exn]; a computation that may raise and that
      performs calls to the collaborators is a value of the monad [M], which
      threads the log of the calls made so far (also when it raises).
    - The collaborators that are not part of this file of the repository (the
      label file reader, moviepy's [VideoFileClip], the face extractor) are
      records of functions: what they answer is a parameter of every
      statement. *)

From Stdlib Require Import ZArith QArith Qround List Bool Lia Lqa String.
From stdpp Require Import base option list strings gmap.

(** ** Numbers *)

Module Num.

(** [int(x)] on a float: truncation towards zero. *)
Definition int (x : Q) : Z := Z.quot (Qnum x) (Zpos (Qden x)).

(** [np.rint]: the nearest integer, a tie going to the even one. *)
Definition rint (x : Q) : Z :=
  let f := Qfloor x in
  let r := (x - inject_Z f)%Q in
  match (r ?= 1 # 2)%Q with
  | Lt => f
  | Gt => (f + 1)%Z
  | Eq => if Z.even f then f else (f + 1)%Z
  end.

(** [np.around(x, decimals=d)]: [rint(x * 10**d) / 10**d]. *)
Definition around (x : Q) (decimals : nat) : Q :=
  let p := inject_Z (10 ^ Z.of_nat decimals) in
  (inject_Z (rint (x * p)) / p)%Q.

(** Python's [a[:k]] on a sequence: the [k] leading elements, and for a
    negative [k] all but the [-k] last ones. *)
Definition slice_to {A} (k : Z) (l : list A) : list A :=
  if (0 <=? k)%Z then firstn (Z.to_nat k) l
  else firstn (Z.to_nat (Z.of_nat (length l) + k)) l.

(** [row.mean()] of a one-dimensional array that is not empty (an audio
    sample has at least one channel). *)
Definition mean (row : list Q) : Q :=
  (fold_right Qplus 0 row / inject_Z (Z.of_nat (length row)))%Q.

End Num.

(** ** Exceptions and the call log *)

(** The exceptions the generator raises itself, and [Raised] for whatever a
    collaborator raises. *)
Inductive exn : Type :=
| IndexError
| ValueError
| AxisError
| AttributeError
| Raised (what : string).

Inductive result (A : Type) : Type :=
| Ok (a : A)
| Err (e : exn).
Arguments Ok {A} a.
Arguments Err {A} e.

(** ** Arrays *)

(** A [numpy.ndarray] of floats: its shape and its elements in row-major
    order. *)
Record ndarray : Type := Array { shape : list nat; data : list Q }.

Module Np.

Definition size_of (sh : list nat) : nat := fold_right Nat.mul 1%nat sh.

(** [np.zeros(sh, dtype=np.float32)] *)
Definition zeros (sh : list nat) : ndarray :=
  Array sh (repeat 0%Q (size_of sh)).

(** [np.array(l)] for a list [l] of arrays: an empty list gives the empty
    one-dimensional array, arrays of one shape are stacked along a new
    leading axis, and arrays of different shapes are refused. *)
Definition stack (l : list ndarray) : result ndarray :=
  match l with
  | [] => Ok (Array [0%nat] [])
  | a :: rest =>
      if forallb (fun b => bool_decide (shape b = shape a)) rest
      then Ok (Array (length l :: shape a) (concat (map data l)))
      else Err ValueError
  end.

(** The number of indices selected by [[:k]] on an axis of length [n]. *)
Definition slice_len (k : Z) (n : nat) : nat :=
  if (0 <=? k)%Z then Nat.min (Z.to_nat k) n
  else Z.to_nat (Z.of_nat n + k).

(** [a[:k]]: the slice along the leading axis. *)
Definition slice0 (k : Z) (a : ndarray) : result ndarray :=
  match shape a with
  | [] => Err IndexError
  | n :: rest =>
      let n' := slice_len k n in
      Ok (Array (n' :: rest) (firstn (n' * size_of rest) (data a)))
  end.

(** The elements of [a.transpose(0, 3, 1, 2)] for [a] of shape
    [(T, H, W, C)]: the element at [(t, c, h, w)] is [a[t, h, w, c]]. *)
Definition transpose_data (T H W C : nat) (d : list Q) : list Q :=
  flat_map (fun t =>
    flat_map (fun c =>
      flat_map (fun h =>
        map (fun w => nth (((t * H + h) * W + w) * C + c) d 0%Q)
            (seq 0 W))
        (seq 0 H))
      (seq 0 C))
    (seq 0 T).

(** [a.transpose(0, 3, 1, 2)]: four axes are named, so [a] must have four. *)
Definition transpose_0312 (a : ndarray) : result ndarray :=
  match shape a with
  | [T; H; W; C] => Ok (Array [T; C; H; W] (transpose_data T H W C (data a)))
  | _ => Err ValueError
  end.

(** [np.array(rows)] for a list of rows of floats: the empty list gives the
    empty one-dimensional array (represented by [[]]), rows of one length a
    two-dimensional array, and rows of different lengths are refused. *)
Definition array2 (rows : list (list Q)) : result (list (list Q)) :=
  match rows with
  | [] => Ok []
  | r :: rest =>
      if forallb (fun r' => bool_decide (length r' = length r)) rest
      then Ok rows
      else Err ValueError
  end.

(** [a[:, 0]]: needs two axes and a first column. *)
Definition column0 (a : list (list Q)) : result (list Q) :=
  match a with
  | [] => Err IndexError
  | [] :: _ => Err IndexError
  | _ => Ok (map (hd 0%Q) a)
  end.

(** [a[:-1, 1:]] on a two-dimensional array. *)
Definition drop_last_row_first_col (a : list (list Q)) : list (list Q) :=
  map (@tail Q) (removelast a).

(** [a.mean(1)]: the mean of every row; the empty one-dimensional array has
    no axis 1. *)
Definition mean1 (a : list (list Q)) : result (list Q) :=
  match a with
  | [] => Err AxisError
  | _ => Ok (map Num.mean a)
  end.

(** [v[i]] on a one-dimensional array, for [i >= 0]. *)
Definition getitem (v : list Q) (i : nat) : result Q :=
  match v !! i with
  | Some x => Ok x
  | None => Err IndexError
  end.

End Np.

(** ** Calls to the collaborators *)

(** What the generator asks of the outside world, in the order it asks. *)
Inductive event : Type :=
| EvReadLabels (label_file : string)
| EvOpenClip (data_file : string)
| EvSetAudioFps (rate : Z)
| EvVideoRange (start_time end_time : Q)
| EvDetect (frames : ndarray)
| EvAudioRange (start_time end_time : Q).

(** A computation: the calls it made, and its value or the exception that
    ended it. *)
Definition M (A : Type) : Type := list event * result A.

Definition ret {A} (a : A) : M A := ([], Ok a).

Definition bind {A B} (m : M A) (f : A -> M B) : M B :=
  match m with
  | (log, Ok a) => let '(log', r) := f a in (log ++ log', r)
  | (log, Err e) => (log, Err e)
  end.

(** A pure step that may raise. *)
Definition lift {A} (r : result A) : M A := ([], r).

(** A call to a collaborator, and its answer. *)
Definition call {A} (ev : event) (answer : result A) : M A := ([ev], answer).

Notation "'let*' x ':=' m 'in' k" := (bind m (fun x => k))
  (at level 10, x pattern, m at level 100, k at level 200).

(** [try: m except: handler] with a bare [except], which catches whatever
    is raised. *)
Definition try_except {A} (m : M A) (handler : exn -> M A) : M A :=
  match m with
  | (log, Ok a) => (log, Ok a)
  | (log, Err e) => let '(log', r) := handler e in (log ++ log', r)
  end.

(** [for i in idx: s = body(i, s)] *)
Fixpoint for_each {S} (idx : list nat) (body : nat -> S -> M S) (s : S)
    : M S :=
  match idx with
  | [] => ret s
  | i :: idx' => let* s' := body i s in for_each idx' body s'
  end.

(** [range(n)] for an [n] that may be negative. *)
Definition range (n : Z) : list nat := seq 0 (Z.to_nat n).

(** ** The collaborators *)

(** [FileReader]: [read_file] gives the rows of the label file and the
    names of its columns. *)
Record FileReader : Type :=
  { read_file : string -> result (list (list Q) * list string) }.

(** [FaceExtractor]: the face detector, and the size it resizes to. *)
Record FaceExtractor : Type :=
  { extract_and_resize_face : ndarray -> result ndarray;
    resize : list nat }.

(** The audio track of a clip: [audio_frames s e] is
    [list(audio.subclip(s, e).iter_frames())], one row of channel values for
    every audio sample. *)
Record AudioClip : Type :=
  { audio_frames : Q -> Q -> result (list (list Q)) }.

(** An open [VideoFileClip]: [video_frames s e] is
    [list(clip.subclip(s, e).iter_frames())], one array for every picture,
    and [audio] is the audio track, if the file has one. *)
Record Clip : Type :=
  { video_frames : Q -> Q -> result (list ndarray);
    audio : option AudioClip }.

(** ** The generator *)

Record AudioVisualGenerator : Type :=
  { detector : option FaceExtractor;
    labelfile_reader : FileReader;
    fps : Z;
    sr : Z }.

(** What [_get_samples] returns. *)
Record samples : Type :=
  { audio_tensor : list (list Q);
    visual_tensor : ndarray;
    labels : list (list Q);
    seq_num : Z;
    num_samples : Z * Z;
    attrs_name : list string }.

Section Generator.

(** [FaceExtractor()], the detector built when none is given. *)
Variable default_detector : FaceExtractor.

(** [AudioVisualGenerator(labelfile_reader, detector, fps, sr)]; a missing
    or false [detector] argument is [None].  The constructor of the base
    class [Generator] sets none of the four fields. *)
Definition __init__ (reader : FileReader) (det : option FaceExtractor)
    (fps sr : Z) : AudioVisualGenerator :=
  let det :=
    match det with
    | None => default_detector
    | Some d => d
    end in
  {| detector := Some det; labelfile_reader := reader;
     fps := fps; sr := sr |}.

End Generator.

(** [int(np.around(rate * (t1 - t0), decimals=6))] *)
Definition window (rate : Z) (t0 t1 : Q) : Z :=
  Num.int (Num.around (inject_Z rate * (t1 - t0)) 6).

Section GetSamples.

Variable self : AudioVisualGenerator.

(** moviepy's [VideoFileClip(path)]. *)
Variable VideoFileClip : string -> result Clip.

(** Lines 76 to 81: the detector, when there is one, with the block of
    zeros for whatever it raises. *)
Definition post_process (visual_frame : ndarray) : M ndarray :=
  match detector self with
  | Some d =>
      try_except
        (call (EvDetect visual_frame)
              (extract_and_resize_face d visual_frame))
        (fun _ =>
           let* r0 := lift (match resize d !! 0%nat with
                            | Some r => Ok r
                            | None => Err IndexError
                            end) in
           ret (Np.zeros [1%nat; r0; r0; 3%nat]))
  | None => ret visual_frame
  end.

(** The body of the loop of [_get_samples], lines 70 to 89. *)
Definition segment (clip : Clip) (timestamps : list Q)
    (visual_num_samples audio_num_samples : Z) (i : nat)
    (acc : list ndarray * list (list Q)) : M (list ndarray * list (list Q)) :=
  let '(visual_frames, audio_frames_acc) := acc in
  let* start_time := lift (Np.getitem timestamps i) in
  let* end_time := lift (Np.getitem timestamps (i + 1)) in
  let* frames := call (EvVideoRange start_time end_time)
                 (video_frames clip start_time end_time) in
  let* visual_frame := lift (Np.stack frames) in
  let* visual_frame := lift (Np.slice0 visual_num_samples visual_frame) in
  let* visual_frame := post_process visual_frame in
  let* visual_frame := lift (Np.transpose_0312 visual_frame) in
  let visual_frames := visual_frames ++ [visual_frame] in
  let* track := lift (match audio clip with
                 | Some a => Ok a
                 | None => Err AttributeError
                 end) in
  let* rows := call (EvAudioRange start_time end_time)
               (audio_frames track start_time end_time) in
  let* audio_frame := lift (Np.array2 rows) in
  let* audio_frame := lift (Np.mean1 audio_frame) in
  let audio_frame := Num.slice_to audio_num_samples audio_frame in
  ret (visual_frames, audio_frames_acc ++ [audio_frame]).

(** [_get_samples], lines 55 to 97.  The two calls of [set_fps] of lines 61
    and 62 answer a new clip, which is dropped: the clip stays as it is. *)
Definition _get_samples (data_file label_file : string) : M samples :=
  let* (file_data, attrs_name) :=
     call (EvReadLabels label_file)
          (read_file (labelfile_reader self) label_file) in
  let* file_data := lift (Np.array2 file_data) in
  let* timestamps := lift (Np.column0 file_data) in
  let labels := Np.drop_last_row_first_col file_data in
  let* clip := call (EvOpenClip data_file) (VideoFileClip data_file) in
  let* track := lift (match audio clip with
                 | Some a => Ok a
                 | None => Err AttributeError
                 end) in
  let* _ := call (EvSetAudioFps (sr self)) (Ok tt) in
  let* _ := call (EvSetAudioFps (fps self)) (Ok tt) in
  let seq_num := (Z.of_nat (length labels) - 1)%Z in
  let* t1 := lift (Np.getitem timestamps 1) in
  let* t0 := lift (Np.getitem timestamps 0) in
  let visual_num_samples := window (fps self) t0 t1 in
  let audio_num_samples := window (sr self) t0 t1 in
  let* (visual_frames, audio_frames) :=
     for_each (range (Z.of_nat (length timestamps) - 1))
       (segment clip timestamps visual_num_samples audio_num_samples)
       ([], []) in
  let* visual_frames := lift (Np.stack visual_frames) in
  let* audio_frames := lift (Np.array2 audio_frames) in
  ret {| audio_tensor := audio_frames; visual_tensor := visual_frames;
         labels := labels; seq_num := seq_num;
         num_samples := (audio_num_samples, visual_num_samples);
         attrs_name := attrs_name |}.

End GetSamples.

(** ** The container *)

(** What is stored in an [h5py.File]: arrays, and attributes. *)
Inductive h5value : Type :=
| H5Array (a : ndarray)
| H5Table (t : list (list Q))
| H5Str (s : string)
| H5Int (z : Z)
| H5Ints (l : list Z)
| H5Strs (l : list string).

Record h5file : Type :=
  { datasets : gmap string h5value;
    attrs : gmap string h5value }.

(** [writer.create_dataset(name, data=v)]: a name is created once. *)
Definition create_dataset (name : string) (v : h5value) (writer : h5file)
    : result h5file :=
  match datasets writer !! name with
  | Some _ => Err ValueError
  | None => Ok {| datasets := <[name := v]> (datasets writer);
                  attrs := attrs writer |}
  end.

(** [writer.attrs[name] = v] *)
Definition set_attr (name : string) (v : h5value) (writer : h5file) : h5file :=
  {| datasets := datasets writer; attrs := <[name := v]> (attrs writer) |}.

Section Serialize.

Variable self : AudioVisualGenerator.
Variable VideoFileClip : string -> result Clip.

(** [serialize_samples], lines 108 to 123. *)
Definition serialize_samples (writer : h5file) (data_file label_file : string)
    : M h5file :=
  let* s := _get_samples self VideoFileClip data_file label_file in
  let audio_frames := audio_tensor s in
  let visual_frames := visual_tensor s in
  let (audio_num_samples, visual_num_samples) := num_samples s in
  let names := attrs_name s in
  let* writer := lift (create_dataset "audio" (H5Table audio_frames) writer) in
  let* writer := lift (create_dataset "visual" (H5Array visual_frames) writer) in
  let* writer := lift (create_dataset "labels" (H5Table (labels s)) writer) in
  let writer := set_attr "data_file" (H5Str data_file) writer in
  let writer := set_attr "label_file" (H5Str label_file) writer in
  let writer := set_attr "seq_num" (H5Int (seq_num s)) writer in
  let writer :=
    set_attr "num_samples" (H5Ints [audio_num_samples; visual_num_samples])
             writer in
  let writer := set_attr "label_names" (H5Strs (tail names)) writer in
  ret writer.

End Serialize.

(** ** A small world to run the generator in *)

Module Demo.

(** A picture of [h] by [w] points and 3 colours, all of value [v]. *)
Definition picture (h w : nat) (v : Q) : ndarray :=
  Array [h; w; 3%nat] (repeat v (h * w * 3)).

(** A detector that answers one picture of zeros and ones for every
    picture it is given, resized to 2 by 2, and raises when the interval
    it is shown starts with a picture of value [bad]. *)
Definition face (bad : Q) : FaceExtractor :=
  {| extract_and_resize_face a :=
       match shape a, data a with
       | [T; _; _; _], v :: _ =>
           if Qeq_bool v bad then Err (Raised "no face")
           else Ok (Array [T; 2; 2; 3]%nat (repeat 1%Q (T * 12)))
       | _, _ => Err (Raised "no frames")
       end;
     resize := [2; 2]%nat |}.

(** A clip of [rate] pictures a second, of 1 by 1 points, and two audio
    channels; the pictures and samples of an interval carry its start
    time. *)
Definition clip (rate arate : Z) : Clip :=
  {| video_frames s e :=
       Ok (repeat (picture 1 1 s)
                  (Z.to_nat (Num.int (inject_Z rate * (e - s)))));
     audio := Some {| audio_frames s e :=
       Ok (repeat [s; (s + 2)%Q]
                  (Z.to_nat (Num.int (inject_Z arate * (e - s))))) |} |}.

(** The same clip, cut short: nothing can be read from time [limit] on. *)
Definition clip_until (limit : Q) (rate arate : Z) : Clip :=
  {| video_frames s e :=
       if Qle_bool limit s then Err (Raised "end of file")
       else video_frames (clip rate arate) s e;
     audio := Some {| audio_frames s e :=
       if Qle_bool limit s then Err (Raised "end of file")
       else match audio (clip rate arate) with
            | Some a => audio_frames a s e
            | None => Err AttributeError
            end |} |}.

Definition reader (rows : list (list Q)) (names : list string) : FileReader :=
  {| read_file _ := Ok (rows, names) |}.


Definition names : list string := ["time"; "arousal"; "valence"]%string.

End Demo.

(** * The vocabulary of the statements *)

(** The calls of a computation, and how it ended. *)
Definition calls {A} (m : M A) : list event := fst m.
Definition outcome {A} (m : M A) : result A := snd m.

Section Segment.

Variable self : AudioVisualGenerator.
Variable clip : Clip.
Variable timestamps : list Q.
Variables visual_num_samples audio_num_samples : Z.

(** What the detector is given for segment [i]: the pictures of the
    interval, cut to the visual window. *)
Definition detector_input (i : nat) : result ndarray :=
  match Np.getitem timestamps i, Np.getitem timestamps (i + 1) with
  | Ok s, Ok e =>
      match video_frames clip s e with
      | Ok frames =>
          match Np.stack frames with
          | Ok a => Np.slice0 visual_num_samples a
          | Err x => Err x
          end
      | Err x => Err x
      end
  | Err x, _ | _, Err x => Err x
  end.

(** The two blocks the loop adds for segment [i]. *)
Definition block (i : nat) : M (ndarray * list Q) :=
  let* start_time := lift (Np.getitem timestamps i) in
  let* end_time := lift (Np.getitem timestamps (i + 1)) in
  let* frames := call (EvVideoRange start_time end_time)
                      (video_frames clip start_time end_time) in
  let* a := lift (Np.stack frames) in
  let* a := lift (Np.slice0 visual_num_samples a) in
  let* a := post_process self a in
  let* v := lift (Np.transpose_0312 a) in
  let* track := lift (match audio clip with
                      | Some t => Ok t
                      | None => Err AttributeError
                      end) in
  let* rows := call (EvAudioRange start_time end_time)
                    (audio_frames track start_time end_time) in
  let* rows := lift (Np.array2 rows) in
  let* means := lift (Np.mean1 rows) in
  ret (v, Num.slice_to audio_num_samples means).

End Segment.

(** [[f(i) for i in l]] *)
Fixpoint mapM {A B} (f : A -> M B) (l : list A) : M (list B) :=
  match l with
  | [] => ret []
  | i :: l' => let* b := f i in let* bs := mapM f l' in ret (b :: bs)
  end.

(** The timestamps of a label table: its first column. *)
Definition timestamps_of (rows : list (list Q)) : list Q := map (hd 0%Q) rows.

(** The block of zeros of lines 80 and 81, once transposed. *)
Definition fallback_block (R : nat) : ndarray :=
  Array [1; 3; R; R]%nat
        (Np.transpose_data 1 R R 3 (data (Np.zeros [1; R; R; 3]%nat))).

(** The calls that read a range of the media file. *)
Definition is_range (ev : event) : bool :=
  match ev with
  | EvVideoRange _ _ | EvAudioRange _ _ => true
  | _ => false
  end.

(** The calls to the detector. *)
Definition is_detect (ev : event) : bool :=
  match ev with
  | EvDetect _ => true
  | _ => false
  end.

(** What became of the answer of detector [d] on frames [a]. *)
Definition caught (d : FaceExtractor) (a : ndarray) (r : result ndarray)
    : Prop :=
  match extract_and_resize_face d a, resize d !! 0%nat with
  | Ok v, _ => r = Ok v
  | Err _, Some R => r = Ok (Np.zeros [1; R; R; 3]%nat)
  | Err _, None => r = Err IndexError
  end.




(** * Properties *)

(** ** The monad *)

Lemma bind_ret_l {A B} (a : A) (f : A -> M B) : bind (ret a) f = f a.
Proof. unfold bind, ret. destruct (f a). reflexivity. Qed.

Lemma bind_ret_r {A} (m : M A) : bind m ret = m.
Proof.
  destruct m as [log [a | e]]; simpl; [rewrite app_nil_r |]; reflexivity.
Qed.

Lemma bind_assoc {A B C} (m : M A) (f : A -> M B) (g : B -> M C) :
  bind (bind m f) g = bind m (fun a => bind (f a) g).
Proof.
  destruct m as [log [a | e]]; simpl; [| reflexivity].
  destruct (f a) as [log1 [b | e]]; simpl; [| reflexivity].
  destruct (g b) as [log2 r]. rewrite app_assoc. reflexivity.
Qed.

Lemma bind_lift_ok {A B} (a : A) (f : A -> M B) : bind (lift (Ok a)) f = f a.
Proof. apply bind_ret_l. Qed.

Lemma bind_lift_err {A B} (e : exn) (f : A -> M B) :
  bind (lift (Err e)) f = ([], Err e).
Proof. reflexivity. Qed.

Lemma bind_call_ok {A B} ev (a : A) (f : A -> M B) :
  bind (call ev (Ok a)) f = (ev :: calls (f a), outcome (f a)).
Proof. unfold bind, call. destruct (f a). reflexivity. Qed.

Lemma bind_call_err {A B} ev (e : exn) (f : A -> M B) :
  bind (call ev (Err e)) f = ([ev], Err e).
Proof. reflexivity. Qed.

(** A computation that ends well is made of two that end well. *)
Lemma bind_ok {A B} (m : M A) (f : A -> M B) log (b : B) :
  bind m f = (log, Ok b) ->
  exists log1 a log2,
    m = (log1, Ok a) /\ f a = (log2, Ok b) /\ log = log1 ++ log2.
Proof.
  destruct m as [log1 [a | e]]; simpl; [| discriminate].
  destruct (f a) as [log2 r] eqn:E. intros [= <- ->].
  exists log1, a, log2. auto.
Qed.

Lemma lift_ok {A} (r : result A) log (a : A) :
  lift r = (log, Ok a) -> r = Ok a /\ log = [].
Proof. unfold lift. intros [= <- ->]. auto. Qed.

Lemma call_ok {A} ev (r : result A) log (a : A) :
  call ev r = (log, Ok a) -> r = Ok a /\ log = [ev].
Proof. unfold call. intros [= <- ->]. auto. Qed.

Lemma ret_ok {A} (x : A) log (a : A) :
  ret x = (log, Ok a) -> x = a /\ log = [].
Proof. unfold ret. intros [= <- ->]. auto. Qed.

(** Takes a computation that ended well apart, step by step. *)
Ltac inv_ok :=
  repeat match goal with
  | H : bind _ _ = (_, Ok _) |- _ =>
      let l1 := fresh "log" in let l2 := fresh "log" in
      let a := fresh "v" in
      apply bind_ok in H; destruct H as (l1 & a & l2 & ? & H & ->)
  | H : lift _ = (_, Ok _) |- _ => apply lift_ok in H; destruct H as [H ->]
  | H : call _ _ = (_, Ok _) |- _ => apply call_ok in H; destruct H as [H ->]
  | H : ret _ = (_, Ok _) |- _ => apply ret_ok in H; destruct H as [<- ->]
  | H : (let (_, _) := ?p in _) = _ |- _ => destruct p
  end.

(** ** One segment *)

Section Block.

Variable self : AudioVisualGenerator.
Variable clip : Clip.
Variable timestamps : list Q.
Variables visual_num_samples audio_num_samples : Z.

Lemma segment_block i vs aus :
  segment self clip timestamps visual_num_samples audio_num_samples i
          (vs, aus)
  = let* b := block self clip timestamps visual_num_samples
                  audio_num_samples i in
    ret (vs ++ [fst b], aus ++ [snd b]).
Proof.
  unfold block, segment, post_process, try_except, bind, lift, call, ret.
  repeat (match goal with
  | |- context [match ?r with Ok _ => _ | Err _ => _ end] => destruct r eqn:?
  | |- context [match ?r with Some _ => _ | None => _ end] => destruct r eqn:?
  end; simpl); rewrite ?app_nil_r; reflexivity.
Qed.

End Block.

(** ** The loop *)


Lemma mapM_ok {A B} (f : A -> M B) l log bs :
  mapM f l = (log, Ok bs) ->
  Forall2 (fun i b => outcome (f i) = Ok b) l bs /\
  log = flat_map (fun i => calls (f i)) l.
Proof.
  revert log bs. induction l as [| i l IH]; simpl; intros log bs H.
  - inv_ok. split; [constructor | reflexivity].
  - apply bind_ok in H. destruct H as (l1 & b & l2 & Hb & H & ->).
    apply bind_ok in H. destruct H as (l3 & bs' & l4 & Hbs & H & ->).
    apply ret_ok in H. destruct H as [<- ->].
    destruct (IH _ _ Hbs) as [IH1 ->].
    rewrite Hb, app_nil_r. simpl. split; [| reflexivity].
    constructor; [rewrite Hb; reflexivity | exact IH1].
Qed.


Section Loop.

Variable self : AudioVisualGenerator.
Variable clip : Clip.
Variable timestamps : list Q.
Variables visual_num_samples audio_num_samples : Z.

Let body := segment self clip timestamps visual_num_samples
                    audio_num_samples.
Let blk := block self clip timestamps visual_num_samples audio_num_samples.

(** The loop adds the blocks of its segments, in their order. *)
Lemma for_each_segment idx vs aus :
  for_each idx body (vs, aus)
  = let* bs := mapM blk idx in
    ret (vs ++ map fst bs, aus ++ map snd bs).
Proof.
  revert vs aus.
  induction idx as [| i idx IH]; intros vs aus; cbn [for_each mapM].
  - unfold ret, bind. cbn [map]. rewrite !app_nil_r. reflexivity.
  - unfold body at 1. rewrite segment_block. fold blk.
    destruct (blk i) as [lg [[v a] | e]]; simpl; [| reflexivity].
    rewrite IH. destruct (mapM blk idx) as [lg' [bs | e]]; simpl.
    + rewrite !app_nil_r, <- !app_assoc. reflexivity.
    + rewrite !app_nil_r. reflexivity.
Qed.

End Loop.

(** ** A run that returns *)

Ltac step_lift H a Ha :=
  apply bind_ok in H; destruct H as (? & a & ? & Ha & H & ->);
  apply lift_ok in Ha; destruct Ha as [Ha ->].

Ltac step_call H a Ha :=
  apply bind_ok in H; destruct H as (? & a & ? & Ha & H & ->);
  apply call_ok in Ha; destruct Ha as [Ha ->].

Lemma lookup_map {A B} (f : A -> B) (l : list A) i :
  map f l !! i = option_map f (l !! i).
Proof.
  revert i. induction l as [| x l IH]; intros [| i]; simpl; auto.
Qed.

Lemma array2_ok rows a : Np.array2 rows = Ok a -> a = rows.
Proof.
  destruct rows as [| r rest]; simpl; [congruence |].
  destruct (forallb _ rest); congruence.
Qed.

Lemma column0_ok a ts :
  Np.column0 a = Ok ts -> ts = map (hd 0%Q) a /\ length ts = length a.
Proof.
  destruct a as [| [| x r] rest]; cbn [Np.column0]; try discriminate.
  intros [= <-]. split; [reflexivity |]. simpl. rewrite length_map. reflexivity.
Qed.

Lemma getitem_ok v i x : Np.getitem v i = Ok x <-> v !! i = Some x.
Proof.
  unfold Np.getitem. destruct (v !! i); split; congruence.
Qed.

Lemma length_drop_last_row_first_col a :
  length (Np.drop_last_row_first_col a) = (length a - 1)%nat.
Proof.
  unfold Np.drop_last_row_first_col. rewrite length_map.
  induction a as [| r [| r' a] IH]; simpl in *; auto.
  rewrite IH. lia.
Qed.

Section Run.

Variable self : AudioVisualGenerator.
Variable VideoFileClip : string -> result Clip.
Variables data_file label_file : string.

(** Everything a returning run of [_get_samples] went through. *)
Lemma get_samples_ok log s :
  _get_samples self VideoFileClip data_file label_file = (log, Ok s) ->
  exists rows ts clip track t0 t1 blog bs,
    read_file (labelfile_reader self) label_file = Ok (rows, attrs_name s) /\
    Np.column0 rows = Ok ts /\
    VideoFileClip data_file = Ok clip /\
    audio clip = Some track /\
    ts !! 0%nat = Some t0 /\ ts !! 1%nat = Some t1 /\
    mapM (block self clip ts (window (fps self) t0 t1)
                (window (sr self) t0 t1))
         (range (Z.of_nat (length ts) - 1)) = (blog, Ok bs) /\
    Np.stack (map fst bs) = Ok (visual_tensor s) /\
    audio_tensor s = map snd bs /\
    labels s = Np.drop_last_row_first_col rows /\
    seq_num s = (Z.of_nat (length (labels s)) - 1)%Z /\
    num_samples s = (window (sr self) t0 t1, window (fps self) t0 t1) /\
    log = [EvReadLabels label_file; EvOpenClip data_file;
           EvSetAudioFps (sr self); EvSetAudioFps (fps self)] ++ blog.
Proof.
  unfold _get_samples. intros H.
  step_call H rn Hread. destruct rn as [rows names].
  step_lift H a Ha. apply array2_ok in Ha. subst a.
  step_lift H ts Hts.
  step_call H clip Hclip.
  step_lift H track Htrack.
  step_call H u1 Hu1. step_call H u2 Hu2.
  step_lift H t1 Ht1. step_lift H t0 Ht0.
  apply bind_ok in H. destruct H as (blog & [vs aus] & ? & Hloop & H & ->).
  step_lift H vt Hvt. step_lift H at_ Hat. apply array2_ok in Hat.
  apply ret_ok in H. destruct H as [<- ->]. simpl.
  rewrite for_each_segment in Hloop.
  apply bind_ok in Hloop. destruct Hloop as (? & bs & ? & Hbs & Hr & ->).
  apply ret_ok in Hr. destruct Hr as [[= <- <-] ->]. simpl in *.
  apply getitem_ok in Ht0, Ht1.
  destruct (audio clip) as [tr |] eqn:Haud; [| discriminate].
  injection Htrack as ->.
  exists rows, ts, clip, track, t0, t1. do 2 eexists.
  rewrite !app_nil_r. repeat split; eauto.
Qed.

End Run.

(** ** What one segment went through *)

Section BlockFacts.

Variable self : AudioVisualGenerator.
Variable clip : Clip.
Variable timestamps : list Q.
Variables visual_num_samples audio_num_samples : Z.

Lemma post_process_answer d a v :
  detector self = Some d ->
  extract_and_resize_face d a = Ok v ->
  post_process self a = ([EvDetect a], Ok v).
Proof.
  intros Hd Hv. unfold post_process, try_except, call. rewrite Hd, Hv.
  reflexivity.
Qed.

Lemma post_process_fallback d a e R :
  detector self = Some d ->
  extract_and_resize_face d a = Err e ->
  resize d !! 0%nat = Some R ->
  post_process self a = ([EvDetect a], Ok (Np.zeros [1; R; R; 3]%nat)).
Proof.
  intros Hd He HR. unfold post_process, try_except, call.
  rewrite Hd, He, HR. reflexivity.
Qed.

Lemma post_process_calls d a :
  detector self = Some d -> calls (post_process self a) = [EvDetect a].
Proof.
  intros Hd. unfold post_process, try_except, call. rewrite Hd.
  destruct (extract_and_resize_face d a); [reflexivity |].
  destruct (resize d !! 0%nat); reflexivity.
Qed.

Lemma block_ok i v au :
  outcome (block self clip timestamps visual_num_samples audio_num_samples i)
  = Ok (v, au) ->
  exists s e frames arr inp out track rows means,
    timestamps !! i = Some s /\ timestamps !! (i + 1)%nat = Some e /\
    video_frames clip s e = Ok frames /\
    Np.stack frames = Ok arr /\
    Np.slice0 visual_num_samples arr = Ok inp /\
    outcome (post_process self inp) = Ok out /\
    Np.transpose_0312 out = Ok v /\
    audio clip = Some track /\
    audio_frames track s e = Ok rows /\
    Np.mean1 rows = Ok means /\
    au = Num.slice_to audio_num_samples means /\
    calls (block self clip timestamps visual_num_samples audio_num_samples i)
    = [EvVideoRange s e] ++ calls (post_process self inp)
      ++ [EvAudioRange s e].
Proof.
  destruct (block _ _ _ _ _ i) as [lg r] eqn:H. simpl. intros ->.
  unfold block in H.
  step_lift H s Hs. step_lift H e He. step_call H frames Hfr.
  step_lift H arr Harr. step_lift H inp Hinp.
  apply bind_ok in H. destruct H as (plog & out & ? & Hpp & H & ->).
  step_lift H v' Hv'. step_lift H track Htr. step_call H rows Hrows.
  step_lift H rows' Hrows'. apply array2_ok in Hrows'. subst rows'.
  step_lift H means Hmeans. apply ret_ok in H. destruct H as [[= <- <-] ->].
  apply getitem_ok in Hs, He.
  destruct (audio clip) as [tr |] eqn:Haud; [| discriminate].
  injection Htr as ->.
  exists s, e, frames, arr, inp, out, track, rows, means.
  rewrite Hpp. simpl. rewrite ?app_nil_r. repeat split; auto.
Qed.

End BlockFacts.

(** ** The number of segments *)

Lemma length_range n : length (range n) = Z.to_nat n.
Proof. unfold range. apply length_seq. Qed.

(** A returning run on a table of [N] rows built [N - 1] segments and kept
    [N - 1] rows of labels, and its [seq_num] is [N - 2]. *)
Lemma get_samples_counts self VideoFileClip data_file label_file log s rows
    names :
  _get_samples self VideoFileClip data_file label_file = (log, Ok s) ->
  read_file (labelfile_reader self) label_file = Ok (rows, names) ->
  length (audio_tensor s) = (length rows - 1)%nat /\
  length (labels s) = (length rows - 1)%nat /\
  seq_num s = (Z.of_nat (length rows - 1) - 1)%Z /\
  (2 <= length rows)%nat.
Proof.
  intros H Hread. apply get_samples_ok in H.
  destruct H as (rows' & ts & clip & track & t0 & t1 & blog & bs & Hr & Hts
                 & _ & _ & Ht0 & Ht1 & Hbs & _ & Hau & Hlab & Hseq & _).
  rewrite Hread in Hr. injection Hr as <- _.
  apply column0_ok in Hts. destruct Hts as [_ Hlen].
  apply mapM_ok in Hbs. destruct Hbs as [Hbs _].
  apply Forall2_length in Hbs. rewrite length_range in Hbs.
  apply lookup_lt_Some in Ht1.
  rewrite Hseq, Hlab, Hau, length_map, length_drop_last_row_first_col.
  repeat split; lia.
Qed.

(** C1.  A label table of two rows (one segment): the run builds one audio
    block and keeps one row of labels, and returns [seq_num = 0], one less
    than the number of segments. *)
Theorem C1_seq_num_two_rows :
  exists s,
    outcome (_get_samples
               (__init__ (Demo.face 99) (Demo.reader [[0; 1; 2]; [1 # 2; 3; 4]]%Q
                                                      Demo.names) None 4 8)
               (fun _ => Ok (Demo.clip 4 8)) "v.mp4" "l.csv") = Ok s /\
    seq_num s = 0%Z /\
    length (labels s) = 1%nat /\
    length (audio_tensor s) = 1%nat /\
    shape (visual_tensor s) = [1; 2; 3; 2; 2]%nat.
Proof.
  eexists. split; [vm_compute; reflexivity |]. repeat split.
Qed.

(** ** The sample grid *)

(** The grid of a returning run is computed from the first two timestamps. *)
Lemma get_samples_grid self VideoFileClip data_file label_file log s rows
    names t0 t1 :
  _get_samples self VideoFileClip data_file label_file = (log, Ok s) ->
  read_file (labelfile_reader self) label_file = Ok (rows, names) ->
  timestamps_of rows !! 0%nat = Some t0 ->
  timestamps_of rows !! 1%nat = Some t1 ->
  num_samples s = (window (sr self) t0 t1, window (fps self) t0 t1).
Proof.
  intros H Hread H0 H1. apply get_samples_ok in H.
  destruct H as (rows' & ts & clip & track & t0' & t1' & blog & bs & Hr & Hts
                 & _ & _ & Ht0 & Ht1 & _ & _ & _ & _ & _ & Hns & _).
  rewrite Hread in Hr. injection Hr as <- _.
  apply column0_ok in Hts. destruct Hts as [-> _].
  unfold timestamps_of in *. congruence.
Qed.



(** Timestamps one second apart, 30 frames and 16000 samples a second: the
    windows are 30 and 16000. *)
Example window_one_second :
  window 30 0 1 = 30%Z /\ window 16000 0 1 = 16000%Z.
Proof. split; vm_compute; reflexivity. Qed.


(** ** A failure of the detector on one segment *)

Lemma transpose_zeros R :
  Np.transpose_0312 (Np.zeros [1; R; R; 3]%nat) = Ok (fallback_block R).
Proof. reflexivity. Qed.



Section Isolation.

Variables self self' : AudioVisualGenerator.
Variables d d' : FaceExtractor.
Hypothesis Hd : detector self = Some d.
Hypothesis Hd' : detector self' = Some d'.
Hypothesis Hresize : resize d' = resize d.

Variable clip : Clip.
Variable timestamps : list Q.
Variables visual_num_samples audio_num_samples : Z.

Let blk := block self clip timestamps visual_num_samples audio_num_samples.



End Isolation.

Lemma flat_map_ext_In {A B} (f g : A -> list B) l :
  (forall a, In a l -> f a = g a) -> flat_map f l = flat_map g l.
Proof.
  induction l as [| a l IH]; simpl; intros H; [reflexivity |].
  rewrite (H a), IH by auto. reflexivity.
Qed.



(** What follows the loop is another matter.  Here the detector raises on
    the second of three segments; the loop completes, with the block of zeros
    of one frame among blocks of two frames, and the stacking of line 91 then
    raises [ValueError]. *)
Example stacking_after_fallback_raises :
  outcome (_get_samples
             (__init__ (Demo.face 99)
                       (Demo.reader [[0; 1; 2]; [1 # 2; 3; 4]; [1; 5; 6];
                                     [3 # 2; 7; 8]]%Q Demo.names)
                       (Some (Demo.face (1 # 2))) 4 8)
             (fun _ => Ok (Demo.clip 4 8)) "v.mp4" "l.csv")
  = Err ValueError.
Proof. vm_compute. reflexivity. Qed.

(** ** A label table of fewer than two rows *)

(** C4, as the code has it.  On a label table of fewer than two rows the run
    raises, and it reads no range of the media file.  On an empty table it
    raises [IndexError] before the media file is opened; on a table of one
    row it opens the media file first, and raises [IndexError] where the
    grid is computed. *)
Theorem C4_few_rows_fail_without_range_reads
    self VideoFileClip data_file label_file rows names :
  read_file (labelfile_reader self) label_file = Ok (rows, names) ->
  (length rows < 2)%nat ->
  let run := _get_samples self VideoFileClip data_file label_file in
  (exists e, outcome run = Err e) /\
  forallb (fun ev => negb (is_range ev)) (calls run) = true /\
  (rows = [] -> run = ([EvReadLabels label_file], Err IndexError)) /\
  (forall t r clip track,
      rows = [t :: r] ->
      VideoFileClip data_file = Ok clip ->
      audio clip = Some track ->
      run = ([EvReadLabels label_file; EvOpenClip data_file;
              EvSetAudioFps (sr self); EvSetAudioFps (fps self)],
             Err IndexError)).
Proof.
  intros Hread Hlen run. subst run. unfold _get_samples. rewrite Hread.
  rewrite bind_call_ok.
  destruct rows as [| [| t r] [| r' rows]]; simpl in Hlen; try lia.
  - simpl. repeat split; eauto; intros; discriminate.
  - simpl. repeat split; eauto; intros; discriminate.
  - cbn [Np.array2 forallb]. rewrite bind_lift_ok.
    cbn [Np.column0 map hd]. rewrite bind_lift_ok.
    destruct (VideoFileClip data_file) as [clip | e] eqn:Hclip.
    + rewrite bind_call_ok.
      destruct (audio clip) as [track |] eqn:Haud.
      * simpl. repeat split; eauto; intros; congruence.
      * simpl. repeat split; eauto; intros; congruence.
    + simpl. repeat split; eauto; intros; congruence.
Qed.

Lemma C4_few_rows_fail_without_range_reads_witness :
  let run := _get_samples
               (__init__ (Demo.face 99) (Demo.reader [[0; 1; 2]]%Q Demo.names)
                         None 4 8)
               (fun _ => Ok (Demo.clip 4 8)) "v.mp4" "l.csv" in
  (exists e, outcome run = Err e) /\
  forallb (fun ev => negb (is_range ev)) (calls run) = true /\
  run = ([EvReadLabels "l.csv"; EvOpenClip "v.mp4";
          EvSetAudioFps 8; EvSetAudioFps 4], Err IndexError).
Proof.
  intros run.
  destruct (C4_few_rows_fail_without_range_reads
              (__init__ (Demo.face 99) (Demo.reader [[0; 1; 2]]%Q Demo.names)
                        None 4 8)
              (fun _ => Ok (Demo.clip 4 8)) "v.mp4" "l.csv"
              [[0; 1; 2]]%Q Demo.names eq_refl)
    as (He & Hr & _ & H1); [simpl; lia |].
  split; [exact He |]. split; [exact Hr |].
  exact (H1 0%Q [1; 2]%Q (Demo.clip 4 8) _ eq_refl eq_refl eq_refl).
Defined.

(** C4, as stated, fails: on a label table of one row the run raises only
    after it has opened the media file. *)
Lemma C4_media_opened_counterexample :
  let run := _get_samples
               (__init__ (Demo.face 99) (Demo.reader [[0; 1; 2]]%Q Demo.names)
                         None 4 8)
               (fun _ => Ok (Demo.clip 4 8)) "v.mp4" "l.csv" in
  outcome run = Err IndexError /\ In (EvOpenClip "v.mp4") (calls run).
Proof.
  vm_compute. split; [reflexivity |]. right. left. reflexivity.
Qed.

(** ** The reordering of a block *)






(** The block of zeros is a block of zeros still, once transposed. *)
Lemma fallback_block_zeros R :
  Forall (fun x => x = 0%Q) (data (fallback_block R)).
Proof.
  apply List.Forall_forall. intros x Hx.
  unfold fallback_block, data at 1, Np.transpose_data in Hx.
  repeat (apply List.in_flat_map in Hx; destruct Hx as (? & _ & Hx)).
  apply List.in_map_iff in Hx. destruct Hx as (w & <- & _).
  apply nth_repeat.
Qed.

(** ** The shape of the visual tensor *)

Lemma stack_shape l a :
  Np.stack l = Ok a ->
  shape a = match l with
            | [] => [0%nat]
            | x :: _ => length l :: shape x
            end.
Proof.
  destruct l as [| x rest]; simpl.
  - intros [= <-]. reflexivity.
  - destruct (forallb _ rest); [| discriminate]. intros [= <-]. reflexivity.
Qed.

Lemma slice0_shape k a b :
  Np.slice0 k a = Ok b ->
  exists n rest, shape a = n :: rest /\ shape b = Np.slice_len k n :: rest.
Proof.
  unfold Np.slice0. destruct (shape a) as [| n rest]; [discriminate |].
  intros [= <-]. exists n, rest. auto.
Qed.

Lemma transpose_shape a v :
  Np.transpose_0312 a = Ok v ->
  exists T H W C, shape a = [T; H; W; C] /\ shape v = [T; C; H; W].
Proof.
  unfold Np.transpose_0312.
  destruct (shape a) as [| T [| H [| W [| C [| x rest]]]]]; try discriminate.
  intros [= <-]. exists T, H, W, C. auto.
Qed.

Lemma stack_entries l a v :
  Np.stack l = Ok a -> In v l -> shape a = length l :: shape v.
Proof.
  destruct l as [| x rest]; simpl; [contradiction |].
  destruct (forallb _ rest) eqn:Hall; [| discriminate].
  intros [= <-] [-> | Hv]; [reflexivity |]. simpl.
  rewrite forallb_forall in Hall. specialize (Hall v Hv).
  apply bool_decide_eq_true in Hall. rewrite Hall. reflexivity.
Qed.

(** The visual blocks of a returning run: the run stacks them, there is one
    for every audio block, and each comes from its segment. *)
Lemma get_samples_blocks self VideoFileClip data_file label_file log s :
  _get_samples self VideoFileClip data_file label_file = (log, Ok s) ->
  exists clip ts blocks,
    VideoFileClip data_file = Ok clip /\
    Np.stack blocks = Ok (visual_tensor s) /\
    length blocks = length (audio_tensor s) /\
    (1 <= length blocks)%nat /\
    forall i v,
      blocks !! i = Some v ->
      exists au,
        audio_tensor s !! i = Some au /\
        outcome (block self clip ts (snd (num_samples s))
                       (fst (num_samples s)) i) = Ok (v, au) /\
        forall ev,
          In ev (calls (block self clip ts (snd (num_samples s))
                              (fst (num_samples s)) i)) ->
          In ev log.
Proof.
  intros H. apply get_samples_ok in H.
  destruct H as (rows & ts & clip & track & t0 & t1 & blog & bs & _ & _
                 & Hclip & _ & _ & Ht1 & Hbs & Hst & Hau & _ & _ & Hns & ->).
  rewrite Hns. simpl.
  apply mapM_ok in Hbs. destruct Hbs as [Hall ->].
  exists clip, ts, (map fst bs). rewrite Hau, !length_map.
  repeat split; auto.
  - apply Forall2_length in Hall. rewrite length_range in Hall.
    apply lookup_lt_Some in Ht1. lia.
  - intros i v Hv. rewrite lookup_map in Hv.
    destruct (bs !! i) as [[v' au] |] eqn:Hb; [| discriminate].
    injection Hv as <-.
    destruct (Forall2_lookup_r _ _ _ _ _ Hall Hb) as (i' & Hi' & Hout).
    assert (i' = i) as -> by (apply lookup_seq in Hi'; lia).
    exists au. rewrite lookup_map, Hb. repeat split; auto.
    intros ev Hev. do 4 right. apply in_flat_map. exists i.
    split; [| exact Hev].
    apply list_elem_of_In, list_elem_of_lookup. eauto.
Qed.

(** C5, as the code has it.  When the detector answers, on every segment, a
    block of shape [(T', R, R, C)], every entry of the visual tensor is the
    answer of the detector for its segment, reordered, and of shape
    [(T', C, R, R)].  The frames are cut to the visual window before the
    detector sees them, so [T'] is the visual window when the detector
    answers as many frames as it is given and the media file yields at least
    the visual window of frames for every segment. *)
Theorem C5_visual_tensor_shape
    self VideoFileClip data_file label_file log s d R C :
  _get_samples self VideoFileClip data_file label_file = (log, Ok s) ->
  detector self = Some d ->
  (forall a, In (EvDetect a) log ->
             exists v T', extract_and_resize_face d a = Ok v /\
                          shape v = [T'; R; R; C]) ->
  exists T' blocks,
    Np.stack blocks = Ok (visual_tensor s) /\
    shape (visual_tensor s) = [length (audio_tensor s); T'; C; R; R] /\
    (forall i v,
        blocks !! i = Some v ->
        shape v = [T'; C; R; R] /\
        exists inp out,
          In (EvDetect inp) log /\
          extract_and_resize_face d inp = Ok out /\
          Np.transpose_0312 out = Ok v) /\
    ((0 <= snd (num_samples s))%Z ->
     (forall a v, In (EvDetect a) log ->
                  extract_and_resize_face d a = Ok v ->
                  hd 0%nat (shape v) = hd 0%nat (shape a)) ->
     (forall clip st en frames,
         VideoFileClip data_file = Ok clip ->
         In (EvVideoRange st en) log ->
         video_frames clip st en = Ok frames ->
         (snd (num_samples s) <= Z.of_nat (length frames))%Z) ->
     T' = Z.to_nat (snd (num_samples s))).
Proof.
  intros H Hd Hshape.
  destruct (get_samples_blocks _ _ _ _ _ _ H)
    as (clip & ts & blocks & Hclip & Hst & Hlen & Hne & Hblocks).
  (* every block is an answer of the detector, transposed *)
  assert (Hentry : forall i v,
             blocks !! i = Some v ->
             exists st en frames arr inp out T',
               video_frames clip st en = Ok frames /\
               Np.stack frames = Ok arr /\
               Np.slice0 (snd (num_samples s)) arr = Ok inp /\
               In (EvVideoRange st en) log /\
               In (EvDetect inp) log /\
               extract_and_resize_face d inp = Ok out /\
               Np.transpose_0312 out = Ok v /\
               shape out = [T'; R; R; C] /\
               shape v = [T'; C; R; R]).
  { intros i v Hv. destruct (Hblocks i v Hv) as (au & _ & Hb & Hin).
    apply block_ok in Hb.
    destruct Hb as (st & en & frames & arr & inp & out & track & rows & means
                    & _ & _ & Hfr & Harr & Hinp & Hout & Htr & _ & _ & _ & _
                    & Hcalls).
    rewrite Hcalls, (post_process_calls self d inp Hd) in Hin.
    assert (Hdet : In (EvDetect inp) log) by (apply Hin; simpl; auto).
    assert (Hvid : In (EvVideoRange st en) log) by (apply Hin; simpl; auto).
    destruct (Hshape inp Hdet) as (v0 & T' & Hv0 & Hsh).
    rewrite (post_process_answer self d inp v0 Hd Hv0) in Hout.
    injection Hout as <-.
    pose proof Htr as Htr'. apply transpose_shape in Htr'.
    destruct Htr' as (T & H' & W & C' & Hs0 & Hsv).
    rewrite Hsh in Hs0. injection Hs0 as <- <- <- <-.
    exists st, en, frames, arr, inp, v0, T'. repeat split; auto. }
  (* the first block gives the number of frames of all *)
  destruct blocks as [| v0 rest] eqn:Eb; [simpl in Hne; lia |].
  rewrite <- Eb in *.
  assert (H0 : blocks !! 0%nat = Some v0) by (rewrite Eb; reflexivity).
  destruct (Hentry 0%nat v0 H0)
    as (st & en & frames & arr & inp & out & T' & Hfr & Harr & Hinp & Hvid
        & Hdet & Hout & Htr & Hso & Hsv).
  assert (Hten : shape (visual_tensor s)
                 = [length (audio_tensor s); T'; C; R; R]).
  { rewrite (stack_entries blocks _ v0 Hst), Hlen, Hsv; [reflexivity |].
    rewrite Eb. left. reflexivity. }
  exists T', blocks. split; [exact Hst |]. split; [exact Hten |]. split.
  - intros i v Hv.
    destruct (Hentry i v Hv)
      as (_ & _ & _ & _ & inp' & out' & T1 & _ & _ & _ & _ & Hdet' & Hout'
          & Htr' & _ & Hsv').
    split; [| exists inp', out'; auto].
    assert (Hin : In v blocks).
    { apply list_elem_of_In, list_elem_of_lookup. eauto. }
    pose proof (stack_entries blocks _ v Hst Hin) as Hs'.
    rewrite Hten, Hlen in Hs'. injection Hs' as Hs'. rewrite <- Hs'.
    reflexivity.
  - intros Hpos Hpres Henough.
    specialize (Hpres inp out Hdet Hout). rewrite Hso in Hpres.
    simpl in Hpres.
    specialize (Henough clip st en frames Hclip Hvid Hfr).
    apply slice0_shape in Hinp. destruct Hinp as (n & rest' & Ha & Hi).
    rewrite Hi in Hpres. simpl in Hpres. subst T'.
    assert (Hn : n = length frames).
    { apply stack_shape in Harr. rewrite Harr in Ha.
      destruct frames; injection Ha as <- _; reflexivity. }
    unfold Np.slice_len. destruct (Z.leb_spec 0 (snd (num_samples s))); lia.
Qed.

Lemma C5_visual_tensor_shape_witness :
  exists s T',
    outcome (_get_samples
               (__init__ (Demo.face 99)
                         (Demo.reader [[0; 1; 2]; [1 # 2; 3; 4]]%Q Demo.names)
                         None 4 8)
               (fun _ => Ok (Demo.clip 4 8)) "v.mp4" "l.csv") = Ok s /\
    shape (visual_tensor s) = [length (audio_tensor s); T'; 3; 2; 2]%nat /\
    T' = Z.to_nat (snd (num_samples s)) /\ T' = 2%nat.
Proof.
  eassert (E : _get_samples
                 (__init__ (Demo.face 99)
                           (Demo.reader [[0; 1; 2]; [1 # 2; 3; 4]]%Q
                                        Demo.names)
                           None 4 8)
                 (fun _ => Ok (Demo.clip 4 8)) "v.mp4" "l.csv" = (_, Ok _))
    by (vm_compute; reflexivity).
  destruct (C5_visual_tensor_shape _ _ _ _ _ _ (Demo.face 99) 2%nat 3%nat
              E eq_refl) as (T' & blocks & _ & Hs & _ & HT).
  - intros a Ha. simpl in Ha.
    repeat (destruct Ha as [Ha | Ha]; try discriminate); try contradiction.
    injection Ha as <-. do 2 eexists. split; reflexivity.
  - eexists _, T'. split; [rewrite E; reflexivity |].
    split; [exact Hs |].
    cut (T' = 2%nat); [intros ->; split; reflexivity |].
    apply HT.
    + simpl. lia.
    + intros a v Ha Hv. simpl in Ha.
      repeat (destruct Ha as [Ha | Ha]; try discriminate);
        try contradiction.
      injection Ha as <-. vm_compute in Hv. injection Hv as <-.
      reflexivity.
    + intros clip st en frames Hclip Hin Hfr. simpl in Hin.
      repeat (destruct Hin as [Hin | Hin]; try discriminate);
        try contradiction.
      injection Hclip as <-. injection Hin as <- <-.
      vm_compute in Hfr. injection Hfr as <-. simpl. lia.
Defined.

(** C5, as stated, fails: the window is 3 frames (6 frames a second, an
    interval of half a second), the media file yields 2 frames for the
    interval, the detector answers 2 frames of 2 by 2 points, and the entry
    of the visual tensor is of shape [(2, 3, 2, 2)], not [(3, 3, 2, 2)]. *)
Lemma C5_short_block_counterexample :
  exists s,
    outcome (_get_samples
               (__init__ (Demo.face 99)
                         (Demo.reader [[0; 1; 2]; [1 # 2; 3; 4]]%Q Demo.names)
                         None 6 8)
               (fun _ => Ok (Demo.clip 4 8)) "v.mp4" "l.csv") = Ok s /\
    snd (num_samples s) = 3%Z /\
    extract_and_resize_face (Demo.face 99)
      (Array [2; 1; 1; 3]%nat (repeat 0%Q 6))
    = Ok (Array [2; 2; 2; 3]%nat (repeat 1%Q 24)) /\
    shape (visual_tensor s) = [1; 2; 3; 2; 2]%nat /\
    shape (visual_tensor s) <> [1; 3; 3; 2; 2]%nat.
Proof.
  eexists. split; [vm_compute; reflexivity |].
  repeat split. simpl. discriminate.
Qed.

(** ** Any segment of a returning run *)

(** Segment [i] of a returning run: its two blocks, where they are in what
    the run returns, and its calls. *)
Lemma get_samples_segment
    self VideoFileClip data_file label_file log s rows names i st en :
  _get_samples self VideoFileClip data_file label_file = (log, Ok s) ->
  read_file (labelfile_reader self) label_file = Ok (rows, names) ->
  timestamps_of rows !! i = Some st ->
  timestamps_of rows !! (i + 1)%nat = Some en ->
  exists clip v au blocks,
    VideoFileClip data_file = Ok clip /\
    Np.stack blocks = Ok (visual_tensor s) /\
    length blocks = length (audio_tensor s) /\
    blocks !! i = Some v /\
    audio_tensor s !! i = Some au /\
    outcome (block self clip (timestamps_of rows) (snd (num_samples s))
                   (fst (num_samples s)) i) = Ok (v, au) /\
    forall ev,
      In ev (calls (block self clip (timestamps_of rows)
                          (snd (num_samples s)) (fst (num_samples s)) i)) ->
      In ev log.
Proof.
  intros H Hread Hst Hen. apply get_samples_ok in H.
  destruct H as (rows' & ts & clip & track & t0 & t1 & blog & bs & Hr & Hts
                 & Hclip & _ & _ & _ & Hbs & Hstack & Hau & _ & _ & Hns & ->).
  rewrite Hread in Hr. injection Hr as <- _.
  apply column0_ok in Hts. destruct Hts as [-> _].
  fold (timestamps_of rows) in *. rewrite Hns. simpl.
  apply mapM_ok in Hbs. destruct Hbs as [Hall ->].
  assert (Hi : range (Z.of_nat (length (timestamps_of rows)) - 1) !! i
               = Some i).
  { apply lookup_lt_Some in Hen. unfold range.
    rewrite lookup_seq_lt by lia. reflexivity. }
  destruct (Forall2_lookup_l _ _ _ _ _ Hall Hi) as ([v au] & Hb & Hout).
  exists clip, v, au, (map fst bs).
  rewrite Hau, !length_map, !lookup_map, Hb. simpl.
  repeat split; auto.
  intros ev Hev. do 4 right. apply in_flat_map. exists i. split; [| exact Hev].
  apply list_elem_of_In, list_elem_of_lookup. eauto.
Qed.

(** ** The audio blocks *)

Lemma int_nonneg x : (0 <= x)%Q -> (0 <= Num.int x)%Z.
Proof.
  destruct x as [n d]. unfold Qle, Num.int. simpl. intros H.
  apply Z.quot_pos; lia.
Qed.

Lemma rint_nonneg x : (0 <= x)%Q -> (0 <= Num.rint x)%Z.
Proof.
  intros H. unfold Num.rint.
  assert (Hf : (0 <= Qfloor x)%Z).
  { change 0%Z with (Qfloor 0). apply Qfloor_resp_le. exact H. }
  destruct (_ ?= _)%Q; [destruct (Z.even _) | |]; lia.
Qed.

Lemma around6_nonneg x : (0 <= x)%Q -> (0 <= Num.around x 6)%Q.
Proof.
  intros H. unfold Num.around.
  change (inject_Z (10 ^ Z.of_nat 6)) with (1000000 # 1)%Q.
  assert (Hr : (0 <= Num.rint (x * (1000000 # 1)))%Z).
  { apply rint_nonneg. apply Qmult_le_0_compat; [exact H | discriminate]. }
  generalize dependent (Num.rint (x * (1000000 # 1))). intros n Hn.
  unfold Qle, Qdiv, Qmult, Qinv. simpl. lia.
Qed.

(** A rate and a first interval that are not negative give a window that is
    not negative. *)
Lemma window_nonneg rate t0 t1 :
  (0 <= rate)%Z -> (t0 <= t1)%Q -> (0 <= window rate t0 t1)%Z.
Proof.
  intros Hr Ht. unfold window. apply int_nonneg, around6_nonneg.
  apply Qmult_le_0_compat.
  - unfold Qle. simpl. lia.
  - apply -> Qle_minus_iff. exact Ht.
Qed.

Lemma slice_to_nonneg {A} k (l : list A) :
  (0 <= k)%Z -> Num.slice_to k l = firstn (Z.to_nat k) l.
Proof.
  intros H. unfold Num.slice_to.
  destruct (Z.leb_spec 0 k); [reflexivity | lia].
Qed.

Lemma mean1_ok a means : Np.mean1 a = Ok means -> means = map Num.mean a.
Proof. destruct a; simpl; congruence. Qed.

(** C6.  For every segment of a returning run (with a sampling rate and a
    first interval that are not negative), the audio block the run emits for
    the segment is the mean over the channels of the samples the media file
    gave for the interval of the segment, cut to the leading [audio_window]
    of them. *)
Theorem C6_audio_block_is_channel_mean
    self VideoFileClip data_file label_file log s rows names clip track
    t0 t1 i st en arows :
  _get_samples self VideoFileClip data_file label_file = (log, Ok s) ->
  read_file (labelfile_reader self) label_file = Ok (rows, names) ->
  VideoFileClip data_file = Ok clip ->
  audio clip = Some track ->
  (0 <= sr self)%Z ->
  timestamps_of rows !! 0%nat = Some t0 ->
  timestamps_of rows !! 1%nat = Some t1 ->
  (t0 <= t1)%Q ->
  timestamps_of rows !! i = Some st ->
  timestamps_of rows !! (i + 1)%nat = Some en ->
  audio_frames track st en = Ok arows ->
  audio_tensor s !! i
  = Some (firstn (Z.to_nat (fst (num_samples s))) (map Num.mean arows)).
Proof.
  intros H Hread Hclip Htrack Hsr Ht0 Ht1 Hle Hst Hen Harows.
  pose proof (get_samples_grid _ _ _ _ _ _ _ _ _ _ H Hread Ht0 Ht1) as Hns.
  destruct (get_samples_segment _ _ _ _ _ _ _ _ _ _ _ H Hread Hst Hen)
    as (clip' & v & au & blocks & Hclip' & _ & _ & _ & Hau & Hb & _).
  rewrite Hclip in Hclip'. injection Hclip' as <-.
  apply block_ok in Hb.
  destruct Hb as (st' & en' & frames & arr & inp & out & track' & rows'
                  & means & Hst' & Hen' & _ & _ & _ & _ & _ & Htrack'
                  & Hrows' & Hmeans & -> & _).
  rewrite Hst in Hst'. injection Hst' as <-.
  rewrite Hen in Hen'. injection Hen' as <-.
  rewrite Htrack in Htrack'. injection Htrack' as <-.
  rewrite Harows in Hrows'. injection Hrows' as <-.
  apply mean1_ok in Hmeans. subst means.
  rewrite Hau. f_equal. apply slice_to_nonneg.
  rewrite Hns. simpl. apply window_nonneg; assumption.
Qed.

Lemma C6_audio_block_is_channel_mean_witness :
  exists s,
    outcome (_get_samples
               (__init__ (Demo.face 99)
                         (Demo.reader [[0; 1; 2]; [1 # 2; 3; 4]; [2; 5; 6]]%Q
                                      Demo.names)
                         None 4 8)
               (fun _ => Ok (Demo.clip 4 8)) "v.mp4" "l.csv") = Ok s /\
    audio_tensor s !! 1%nat
    = Some (firstn (Z.to_nat (fst (num_samples s)))
                   (map Num.mean (repeat [1 # 2; (1 # 2) + 2]%Q 12))) /\
    fst (num_samples s) = 4%Z.
Proof.
  eassert (E : _get_samples
                 (__init__ (Demo.face 99)
                           (Demo.reader
                              [[0; 1; 2]; [1 # 2; 3; 4]; [2; 5; 6]]%Q
                              Demo.names)
                           None 4 8)
                 (fun _ => Ok (Demo.clip 4 8)) "v.mp4" "l.csv" = (_, Ok _))
    by (vm_compute; reflexivity).
  eexists. split; [rewrite E; reflexivity |]. split; [| reflexivity].
  refine (C6_audio_block_is_channel_mean _ _ _ _ _ _
            [[0; 1; 2]; [1 # 2; 3; 4]; [2; 5; 6]]%Q Demo.names
            (Demo.clip 4 8) _ 0%Q (1 # 2)%Q 1%nat (1 # 2)%Q 2%Q _
            E eq_refl eq_refl eq_refl _ eq_refl eq_refl _ eq_refl eq_refl
            eq_refl).
  - simpl. lia.
  - unfold Qle. simpl. lia.
Defined.

(** ** The grid is computed once *)

(** C8.  For every segment [i] of a returning run, whatever its own
    interval, the frames given to the detector are the frames of the interval
    cut by [visual_window], and the audio block is the channel means of the
    interval cut by [audio_window], where both windows are the ones computed
    from the first two timestamps. *)
Theorem C8_grid_is_per_run_constant
    self VideoFileClip data_file label_file log s rows names t0 t1 i st en :
  _get_samples self VideoFileClip data_file label_file = (log, Ok s) ->
  read_file (labelfile_reader self) label_file = Ok (rows, names) ->
  timestamps_of rows !! 0%nat = Some t0 ->
  timestamps_of rows !! 1%nat = Some t1 ->
  timestamps_of rows !! i = Some st ->
  timestamps_of rows !! (i + 1)%nat = Some en ->
  num_samples s = (window (sr self) t0 t1, window (fps self) t0 t1) /\
  exists clip track frames arr inp out v blocks arows,
    VideoFileClip data_file = Ok clip /\
    audio clip = Some track /\
    video_frames clip st en = Ok frames /\
    Np.stack frames = Ok arr /\
    Np.slice0 (window (fps self) t0 t1) arr = Ok inp /\
    outcome (post_process self inp) = Ok out /\
    (forall d, detector self = Some d -> In (EvDetect inp) log) /\
    Np.transpose_0312 out = Ok v /\
    Np.stack blocks = Ok (visual_tensor s) /\
    blocks !! i = Some v /\
    audio_frames track st en = Ok arows /\
    audio_tensor s !! i
    = Some (Num.slice_to (window (sr self) t0 t1) (map Num.mean arows)).
Proof.
  intros H Hread Ht0 Ht1 Hst Hen.
  pose proof (get_samples_grid _ _ _ _ _ _ _ _ _ _ H Hread Ht0 Ht1) as Hns.
  split; [exact Hns |].
  destruct (get_samples_segment _ _ _ _ _ _ _ _ _ _ _ H Hread Hst Hen)
    as (clip & v & au & blocks & Hclip & Hstack & _ & Hv & Hau & Hb & Hin).
  rewrite Hns in Hb, Hin. simpl in Hb, Hin.
  apply block_ok in Hb.
  destruct Hb as (st' & en' & frames & arr & inp & out & track & arows
                  & means & Hst' & Hen' & Hfr & Harr & Hinp & Hout & Htr
                  & Htrack & Harows & Hmeans & -> & Hcalls).
  rewrite Hst in Hst'. injection Hst' as <-.
  rewrite Hen in Hen'. injection Hen' as <-.
  apply mean1_ok in Hmeans. subst means.
  exists clip, track, frames, arr, inp, out, v, blocks, arows.
  repeat split; auto.
  intros d Hd. apply Hin. rewrite Hcalls, (post_process_calls self d inp Hd).
  simpl. auto.
Qed.

Lemma C8_grid_is_per_run_constant_witness :
  exists s,
    outcome (_get_samples
               (__init__ (Demo.face 99)
                         (Demo.reader [[0; 1; 2]; [1 # 2; 3; 4]; [2; 5; 6]]%Q
                                      Demo.names)
                         None 4 8)
               (fun _ => Ok (Demo.clip 4 8)) "v.mp4" "l.csv") = Ok s /\
    num_samples s = (4%Z, 2%Z) /\
    audio_tensor s !! 1%nat
    = Some (Num.slice_to 4 (map Num.mean (repeat [1 # 2; (1 # 2) + 2]%Q 12))).
Proof.
  eassert (E : _get_samples
                 (__init__ (Demo.face 99)
                           (Demo.reader
                              [[0; 1; 2]; [1 # 2; 3; 4]; [2; 5; 6]]%Q
                              Demo.names)
                           None 4 8)
                 (fun _ => Ok (Demo.clip 4 8)) "v.mp4" "l.csv" = (_, Ok _))
    by (vm_compute; reflexivity).
  eexists. split; [rewrite E; reflexivity |].
  destruct (C8_grid_is_per_run_constant _ _ _ _ _ _
              [[0; 1; 2]; [1 # 2; 3; 4]; [2; 5; 6]]%Q Demo.names
              0%Q (1 # 2)%Q 1%nat (1 # 2)%Q 2%Q
              E eq_refl eq_refl eq_refl eq_refl eq_refl)
    as (Hns & clip & track & frames & arr & inp & out & v & blocks & arows
        & Hclip & Htrack & _ & _ & _ & _ & _ & _ & _ & _ & Harows & Hau).
  split; [exact Hns |].
  injection Hclip as <-. injection Htrack as <-.
  vm_compute in Harows. injection Harows as <-. exact Hau.
Defined.

(** ** The detector is always there *)

Lemma post_process_caught self d a :
  detector self = Some d -> caught d a (outcome (post_process self a)).
Proof.
  intros Hd. unfold caught, post_process, try_except, call. rewrite Hd.
  destruct (extract_and_resize_face d a); [reflexivity |].
  destruct (resize d !! 0%nat); reflexivity.
Qed.

Lemma detect_calls_of_blocks self clip ts vn an d idx bs :
  detector self = Some d ->
  Forall2 (fun i b => outcome (block self clip ts vn an i) = Ok b) idx bs ->
  length (List.filter is_detect
            (flat_map (fun i => calls (block self clip ts vn an i)) idx))
  = length bs.
Proof.
  intros Hd. induction 1 as [| i [v au] idx bs Hb _ IH]; [reflexivity |].
  cbn [flat_map]. rewrite List.filter_app, length_app, IH.
  apply block_ok in Hb.
  destruct Hb as (st & en & frames & arr & inp & out & track & rows & means
                  & _ & _ & _ & _ & _ & _ & _ & _ & _ & _ & _ & ->).
  rewrite (post_process_calls self d inp Hd). reflexivity.
Qed.

(** C10.  Whatever detector argument the constructor is given, the generator
    it builds has a detector (the argument, or the default one for a missing
    argument); so on every block of frames the post-processing step calls
    that detector and turns whatever it raises into the block of zeros; and
    a returning run has called the detector once for each of its
    segments. *)
Theorem C10_detector_is_never_absent default reader det fps sr :
  let self := __init__ default reader det fps sr in
  let d := match det with
           | Some d => d
           | None => default
           end in
  detector self = Some d /\
  (forall a, calls (post_process self a) = [EvDetect a] /\
             caught d a (outcome (post_process self a))) /\
  forall VideoFileClip data_file label_file log s,
    _get_samples self VideoFileClip data_file label_file = (log, Ok s) ->
    length (List.filter is_detect log) = length (audio_tensor s) /\
    (1 <= length (audio_tensor s))%nat.
Proof.
  intros self d.
  assert (Hd : detector self = Some d) by (destruct det; reflexivity).
  split; [exact Hd |]. split.
  - intros a. split.
    + apply (post_process_calls self d a Hd).
    + apply (post_process_caught self d a Hd).
  - intros VideoFileClip data_file label_file log s H.
    apply get_samples_ok in H.
    destruct H as (rows & ts & clip & track & t0 & t1 & blog & bs & _ & _
                   & _ & _ & _ & Ht1 & Hbs & _ & Hau & _ & _ & _ & ->).
    apply mapM_ok in Hbs. destruct Hbs as [Hall ->].
    rewrite Hau, length_map, List.filter_app, length_app.
    rewrite (detect_calls_of_blocks _ _ _ _ _ d _ _ Hd Hall).
    split; [reflexivity |].
    apply Forall2_length in Hall. rewrite length_range in Hall.
    apply lookup_lt_Some in Ht1. lia.
Qed.

Lemma C10_detector_is_never_absent_witness :
  let self := __init__ (Demo.face 99)
                (Demo.reader [[0; 1; 2]; [1 # 2; 3; 4]; [2; 5; 6]]%Q
                             Demo.names) None 4 8 in
  exists log s,
    _get_samples self (fun _ => Ok (Demo.clip 4 8)) "v.mp4" "l.csv"
    = (log, Ok s) /\
    detector self = Some (Demo.face 99) /\
    length (List.filter is_detect log) = 2%nat.
Proof.
  intros self.
  eassert (E : _get_samples self (fun _ => Ok (Demo.clip 4 8)) "v.mp4" "l.csv"
               = (_, Ok _))
    by (vm_compute; reflexivity).
  destruct (C10_detector_is_never_absent (Demo.face 99)
              (Demo.reader [[0; 1; 2]; [1 # 2; 3; 4]; [2; 5; 6]]%Q Demo.names)
              None 4 8) as (Hd & _ & Hrun).
  destruct (Hrun _ _ _ _ _ E) as [Hcount _].
  do 2 eexists. split; [exact E |]. split; [exact Hd | exact Hcount].
Defined.

(** ** Two runs with the same answers *)







(** ** The stored label names *)

Lemma create_dataset_attrs name v w w' :
  create_dataset name v w = Ok w' -> attrs w' = attrs w.
Proof.
  unfold create_dataset. destruct (datasets w !! name); [discriminate |].
  intros [= <-]. reflexivity.
Qed.

(** C7, as the code has it.  [_get_samples] returns the names of the label
    reader as they are, and [serialize_samples] stores as [label_names]
    those names without the first one. *)
Theorem C7_label_names_drop_one
    self VideoFileClip writer data_file label_file log w' rows names :
  serialize_samples self VideoFileClip writer data_file label_file
  = (log, Ok w') ->
  read_file (labelfile_reader self) label_file = Ok (rows, names) ->
  (exists s,
      outcome (_get_samples self VideoFileClip data_file label_file) = Ok s /\
      attrs_name s = names) /\
  attrs w' !! "label_names" = Some (H5Strs (tail names)).
Proof.
  unfold serialize_samples. intros H Hread.
  apply bind_ok in H. destruct H as (lg & s & ? & Hs & H & ->).
  pose proof (get_samples_ok _ _ _ _ _ _ Hs) as Hok.
  destruct Hok as (rows' & _ & _ & _ & _ & _ & _ & _ & Hr & _).
  rewrite Hread in Hr. injection Hr as _ Hnames.
  split; [exists s; rewrite Hs; auto |].
  destruct (num_samples s) as [an vn].
  step_lift H w1 H1. step_lift H w2 H2. step_lift H w3 H3.
  apply ret_ok in H. destruct H as [<- _].
  unfold set_attr. simpl. rewrite lookup_insert_eq, Hnames. reflexivity.
Qed.

Lemma C7_label_names_drop_one_witness :
  exists log w' s,
    serialize_samples
      (__init__ (Demo.face 99)
                (Demo.reader [[0; 1; 2]; [1 # 2; 3; 4]]%Q Demo.names)
                None 4 8)
      (fun _ => Ok (Demo.clip 4 8))
      {| datasets := ∅; attrs := ∅ |} "v.mp4" "l.csv" = (log, Ok w') /\
    outcome (_get_samples
               (__init__ (Demo.face 99)
                         (Demo.reader [[0; 1; 2]; [1 # 2; 3; 4]]%Q Demo.names)
                         None 4 8)
               (fun _ => Ok (Demo.clip 4 8)) "v.mp4" "l.csv") = Ok s /\
    attrs_name s = ["time"; "arousal"; "valence"]%string /\
    attrs w' !! "label_names" = Some (H5Strs ["arousal"; "valence"]%string).
Proof.
  eassert (E : serialize_samples
                 (__init__ (Demo.face 99)
                           (Demo.reader [[0; 1; 2]; [1 # 2; 3; 4]]%Q
                                        Demo.names)
                           None 4 8)
                 (fun _ => Ok (Demo.clip 4 8))
                 {| datasets := ∅; attrs := ∅ |} "v.mp4" "l.csv" = (_, Ok _)).
  { unfold serialize_samples.
    match goal with
    | |- context [_get_samples ?g ?c ?d ?l] =>
        let r := eval vm_compute in (_get_samples g c d l) in
        replace (_get_samples g c d l) with r by (vm_compute; reflexivity)
    end.
    reflexivity. }
  destruct (C7_label_names_drop_one _ _ _ _ _ _ _
              [[0; 1; 2]; [1 # 2; 3; 4]]%Q Demo.names E eq_refl)
    as [(s & Hs & Hn) Hw].
  do 3 eexists. split; [exact E |]. split; [exact Hs |].
  split; [exact Hn | exact Hw].
Defined.

(** C7, as stated, fails: of the names ["time"; "arousal"; "valence"] the
    run returns all three, and two of them are stored as [label_names]; the
    names without the two leading ones are ["valence"] alone. *)
Lemma C7_two_names_dropped_counterexample :
  exists log w' s,
    serialize_samples
      (__init__ (Demo.face 99)
                (Demo.reader [[0; 1; 2]; [1 # 2; 3; 4]]%Q Demo.names)
                None 4 8)
      (fun _ => Ok (Demo.clip 4 8))
      {| datasets := ∅; attrs := ∅ |} "v.mp4" "l.csv" = (log, Ok w') /\
    outcome (_get_samples
               (__init__ (Demo.face 99)
                         (Demo.reader [[0; 1; 2]; [1 # 2; 3; 4]]%Q Demo.names)
                         None 4 8)
               (fun _ => Ok (Demo.clip 4 8)) "v.mp4" "l.csv") = Ok s /\
    attrs_name s <> tail (tail Demo.names) /\
    attrs w' !! "label_names" <> Some (H5Strs (tail (tail Demo.names))).
Proof.
  eassert (E : serialize_samples
                 (__init__ (Demo.face 99)
                           (Demo.reader [[0; 1; 2]; [1 # 2; 3; 4]]%Q
                                        Demo.names)
                           None 4 8)
                 (fun _ => Ok (Demo.clip 4 8))
                 {| datasets := ∅; attrs := ∅ |} "v.mp4" "l.csv" = (_, Ok _)).
  { unfold serialize_samples.
    match goal with
    | |- context [_get_samples ?g ?c ?d ?l] =>
        let r := eval vm_compute in (_get_samples g c d l) in
        replace (_get_samples g c d l) with r by (vm_compute; reflexivity)
    end.
    reflexivity. }
  do 3 eexists. split; [exact E |]. split; [vm_compute; reflexivity |].
  split; [discriminate |].
  unfold set_attr, attrs. rewrite lookup_insert_eq. discriminate.
Qed.

(** * Further properties of the generator *)

(** ** What a returning run holds *)

Lemma lookup_removelast {A} (l : list A) i :
  (i + 1 < length l)%nat -> removelast l !! i = l !! i.
Proof.
  revert i. induction l as [| x [| y l] IH]; intros i Hi; simpl in Hi;
    try lia.
  destruct i as [| i]; [reflexivity |].
  change (removelast (x :: y :: l)) with (x :: removelast (y :: l)).
  simpl. apply IH. simpl. lia.
Qed.

(** The three tensors of a returning run have one entry for every interval
    between consecutive rows of the label table, which has two rows at
    least. *)
Theorem one_entry_per_interval
    self VideoFileClip data_file label_file log s rows names :
  _get_samples self VideoFileClip data_file label_file = (log, Ok s) ->
  read_file (labelfile_reader self) label_file = Ok (rows, names) ->
  (2 <= length rows)%nat /\
  length (audio_tensor s) = (length rows - 1)%nat /\
  length (labels s) = (length rows - 1)%nat /\
  hd 0%nat (shape (visual_tensor s)) = (length rows - 1)%nat.
Proof.
  intros H Hread.
  destruct (get_samples_counts _ _ _ _ _ _ _ _ H Hread)
    as (Hau & Hlab & _ & Hn).
  destruct (get_samples_blocks _ _ _ _ _ _ H)
    as (clip & ts & blocks & _ & Hst & Hlen & Hne & _).
  repeat split; auto.
  rewrite (stack_shape _ _ Hst).
  destruct blocks as [| v rest]; [simpl in Hne; lia |].
  simpl. simpl in Hlen. lia.
Qed.

Lemma one_entry_per_interval_witness :
  exists s,
    length (audio_tensor s) = 2%nat /\ length (labels s) = 2%nat /\
    hd 0%nat (shape (visual_tensor s)) = 2%nat.
Proof.
  eassert (E : _get_samples
                 (__init__ (Demo.face 99)
                           (Demo.reader
                              [[0; 1; 2]; [1 # 2; 3; 4]; [1; 5; 6]]%Q
                              Demo.names)
                           None 4 8)
                 (fun _ => Ok (Demo.clip 4 8)) "v.mp4" "l.csv" = (_, Ok _))
    by (vm_compute; reflexivity).
  destruct (one_entry_per_interval _ _ _ _ _ _
              [[0; 1; 2]; [1 # 2; 3; 4]; [1; 5; 6]]%Q Demo.names E eq_refl)
    as (_ & Ha & Hl & Hv).
  eexists. split; [exact Ha |]. split; [exact Hl | exact Hv].
Defined.

(** The label vector of interval [i] is the row that starts the interval,
    without its timestamp; the last row gives no label vector. *)
Theorem labels_are_start_rows
    self VideoFileClip data_file label_file log s rows names i row :
  _get_samples self VideoFileClip data_file label_file = (log, Ok s) ->
  read_file (labelfile_reader self) label_file = Ok (rows, names) ->
  rows !! i = Some row ->
  (i + 1 < length rows)%nat ->
  labels s !! i = Some (tail row) /\
  labels s !! (length rows - 1)%nat = None.
Proof.
  intros H Hread Hrow Hi.
  destruct (get_samples_counts _ _ _ _ _ _ _ _ H Hread) as (_ & Hlab & _).
  apply get_samples_ok in H.
  destruct H as (rows' & ts & clip & track & t0 & t1 & blog & bs & Hr & _
                 & _ & _ & _ & _ & _ & _ & _ & Hl & _).
  rewrite Hread in Hr. injection Hr as <- _.
  split.
  - rewrite Hl. unfold Np.drop_last_row_first_col.
    rewrite lookup_map, lookup_removelast, Hrow by exact Hi. reflexivity.
  - apply lookup_ge_None. lia.
Qed.

Lemma labels_are_start_rows_witness :
  exists s,
    labels s !! 1%nat = Some [3; 4]%Q /\ labels s !! 2%nat = None.
Proof.
  eassert (E : _get_samples
                 (__init__ (Demo.face 99)
                           (Demo.reader
                              [[0; 1; 2]; [1 # 2; 3; 4]; [1; 5; 6]]%Q
                              Demo.names)
                           None 4 8)
                 (fun _ => Ok (Demo.clip 4 8)) "v.mp4" "l.csv" = (_, Ok _))
    by (vm_compute; reflexivity).
  eexists.
  apply (labels_are_start_rows _ _ _ _ _ _
           [[0; 1; 2]; [1 # 2; 3; 4]; [1; 5; 6]]%Q Demo.names 1%nat
           [1 # 2; 3; 4]%Q E eq_refl eq_refl).
  simpl. lia.
Defined.

(** ** A run whose label table and media file are in order *)

(** Once the label table is read and the media file is open, a run is the
    loop over the intervals and the two stackings. *)
Lemma get_samples_loop
    self VideoFileClip data_file label_file rows names ts clip track t0 t1 :
  read_file (labelfile_reader self) label_file = Ok (rows, names) ->
  Np.array2 rows = Ok rows ->
  Np.column0 rows = Ok ts ->
  VideoFileClip data_file = Ok clip ->
  audio clip = Some track ->
  ts !! 0%nat = Some t0 ->
  ts !! 1%nat = Some t1 ->
  let vn := window (fps self) t0 t1 in
  let an := window (sr self) t0 t1 in
  let m := mapM (block self clip ts vn an)
                (range (Z.of_nat (length ts) - 1)) in
  _get_samples self VideoFileClip data_file label_file
  = ([EvReadLabels label_file; EvOpenClip data_file;
      EvSetAudioFps (sr self); EvSetAudioFps (fps self)] ++ calls m,
     match outcome m with
     | Err e => Err e
     | Ok bs =>
         match Np.stack (map fst bs) with
         | Err e => Err e
         | Ok vt =>
             match Np.array2 (map snd bs) with
             | Err e => Err e
             | Ok at_ =>
                 Ok {| audio_tensor := at_; visual_tensor := vt;
                       labels := Np.drop_last_row_first_col rows;
                       seq_num :=
                         (Z.of_nat
                            (length (Np.drop_last_row_first_col rows)) - 1)%Z;
                       num_samples := (an, vn);
                       attrs_name := names |}
             end
         end
     end).
Proof.
  intros Hread Harr Hts Hclip Htrack Ht0 Ht1 vn an m.
  unfold _get_samples.
  rewrite Hread, bind_call_ok, Harr, bind_lift_ok, Hts, bind_lift_ok.
  rewrite Hclip, bind_call_ok, Htrack, bind_lift_ok, !bind_call_ok.
  apply getitem_ok in Ht0, Ht1.
  rewrite Ht1, bind_lift_ok, Ht0, bind_lift_ok.
  rewrite for_each_segment. fold vn an m.
  destruct m as [lg [bs | e]]; simpl;
    [| rewrite ?app_nil_r; reflexivity].
  destruct (Np.stack (map fst bs)) as [vt | e]; simpl;
    [| rewrite ?app_nil_r; reflexivity].
  destruct (Np.array2 (map snd bs)) as [at_ | e]; simpl;
    rewrite ?app_nil_r; reflexivity.
Qed.

Lemma mapM_err {A B} (f : A -> M B) l1 k l2 e :
  Forall (fun i => exists b, outcome (f i) = Ok b) l1 ->
  outcome (f k) = Err e ->
  mapM f (l1 ++ k :: l2)
  = (flat_map (fun i => calls (f i)) l1 ++ calls (f k), Err e).
Proof.
  intros Hall Hk. induction Hall as [| i l1 [b Hb] _ IH]; simpl.
  - destruct (f k) as [lg r]. simpl in Hk. subst r. reflexivity.
  - rewrite IH. destruct (f i) as [lg r]. simpl in Hb. subst r. simpl.
    rewrite app_assoc. reflexivity.
Qed.

Lemma range_split n k :
  (k < Z.to_nat n)%nat ->
  range n = seq 0 k ++ k :: seq (S k) (Z.to_nat n - S k).
Proof.
  intros Hk. unfold range.
  replace (Z.to_nat n) with (k + S (Z.to_nat n - S k))%nat at 1 by lia.
  rewrite seq_app. simpl. reflexivity.
Qed.

(** An exception raised in the interval [k], other than one the detector
    raised, ends the run: the run raises it, after the calls of the intervals
    up to [k], and reads nothing of the later intervals. *)
Lemma exception_in_interval_ends_run
    self VideoFileClip data_file label_file rows names ts clip track t0 t1
    k e :
  read_file (labelfile_reader self) label_file = Ok (rows, names) ->
  Np.array2 rows = Ok rows ->
  Np.column0 rows = Ok ts ->
  VideoFileClip data_file = Ok clip ->
  audio clip = Some track ->
  ts !! 0%nat = Some t0 ->
  ts !! 1%nat = Some t1 ->
  (k + 1 < length ts)%nat ->
  let blk := block self clip ts (window (fps self) t0 t1)
                   (window (sr self) t0 t1) in
  (forall i, (i < k)%nat -> exists b, outcome (blk i) = Ok b) ->
  outcome (blk k) = Err e ->
  _get_samples self VideoFileClip data_file label_file
  = ([EvReadLabels label_file; EvOpenClip data_file;
      EvSetAudioFps (sr self); EvSetAudioFps (fps self)]
     ++ flat_map (fun i => calls (blk i)) (seq 0 k) ++ calls (blk k),
     Err e).
Proof.
  intros Hread Harr Hts Hclip Htrack Ht0 Ht1 Hk blk Hbefore Herr.
  rewrite (get_samples_loop _ _ _ _ _ _ _ _ _ _ _
             Hread Harr Hts Hclip Htrack Ht0 Ht1).
  fold blk. rewrite (range_split _ k) by lia.
  rewrite (mapM_err blk (seq 0 k) k _ e); [reflexivity | | exact Herr].
  apply List.Forall_forall. intros i Hi. apply Hbefore.
  apply in_seq in Hi. lia.
Qed.

(** A failure of the media file on the frames of interval [k] is not caught:
    when the intervals before [k] went well, the run raises what the media
    file raised; the read is its last call, so the detector is not called for
    interval [k] and nothing of the later intervals is read. *)
Theorem video_read_error_ends_run
    self VideoFileClip data_file label_file rows names ts clip track t0 t1
    k st en e :
  read_file (labelfile_reader self) label_file = Ok (rows, names) ->
  Np.array2 rows = Ok rows ->
  Np.column0 rows = Ok ts ->
  VideoFileClip data_file = Ok clip ->
  audio clip = Some track ->
  ts !! 0%nat = Some t0 ->
  ts !! 1%nat = Some t1 ->
  ts !! k = Some st ->
  ts !! (k + 1)%nat = Some en ->
  let blk := block self clip ts (window (fps self) t0 t1)
                   (window (sr self) t0 t1) in
  (forall i, (i < k)%nat -> exists b, outcome (blk i) = Ok b) ->
  video_frames clip st en = Err e ->
  _get_samples self VideoFileClip data_file label_file
  = ([EvReadLabels label_file; EvOpenClip data_file;
      EvSetAudioFps (sr self); EvSetAudioFps (fps self)]
     ++ flat_map (fun i => calls (blk i)) (seq 0 k)
     ++ [EvVideoRange st en],
     Err e).
Proof.
  intros Hread Harr Hts Hclip Htrack Ht0 Ht1 Hst Hen blk Hbefore Herr.
  assert (Hblk : blk k = ([EvVideoRange st en], Err e)).
  { unfold blk, block. apply getitem_ok in Hst, Hen.
    rewrite Hst, bind_lift_ok, Hen, bind_lift_ok, Herr. reflexivity. }
  assert (Hlen : (k + 1 < length ts)%nat)
    by (eapply lookup_lt_Some; exact Hen).
  assert (Hek : outcome (blk k) = Err e) by (rewrite Hblk; reflexivity).
  rewrite (exception_in_interval_ends_run
             self VideoFileClip data_file label_file rows names ts clip
             track t0 t1 k e Hread Harr Hts Hclip Htrack Ht0 Ht1 Hlen
             Hbefore Hek).
  fold blk. rewrite Hblk. reflexivity.
Qed.

Lemma video_read_error_ends_run_witness :
  _get_samples
    (__init__ (Demo.face 99)
              (Demo.reader [[0; 1; 2]; [1 # 2; 3; 4]; [1; 5; 6]]%Q Demo.names)
              None 4 8)
    (fun _ => Ok (Demo.clip_until (1 # 2) 4 8)) "v.mp4" "l.csv"
  = ([EvReadLabels "l.csv"; EvOpenClip "v.mp4"; EvSetAudioFps 8;
      EvSetAudioFps 4; EvVideoRange 0 (1 # 2);
      EvDetect (Array [2; 1; 1; 3]%nat (repeat 0%Q 6));
      EvAudioRange 0 (1 # 2); EvVideoRange (1 # 2) 1],
     Err (Raised "end of file")).
Proof.
  refine (video_read_error_ends_run
            (__init__ (Demo.face 99)
                      (Demo.reader [[0; 1; 2]; [1 # 2; 3; 4]; [1; 5; 6]]%Q
                                   Demo.names)
                      None 4 8)
            (fun _ => Ok (Demo.clip_until (1 # 2) 4 8)) "v.mp4" "l.csv"
            [[0; 1; 2]; [1 # 2; 3; 4]; [1; 5; 6]]%Q Demo.names
            [0; 1 # 2; 1]%Q (Demo.clip_until (1 # 2) 4 8) _ 0%Q (1 # 2)%Q
            1%nat (1 # 2)%Q 1%Q (Raised "end of file")
            eq_refl eq_refl eq_refl eq_refl eq_refl eq_refl eq_refl eq_refl
            eq_refl _ eq_refl).
  intros i Hi. assert (i = 0%nat) as -> by lia.
  eexists. vm_compute. reflexivity.
Defined.

(** A failure of the media file on the audio of interval [k] is not caught
    either: the frames of the interval are read and post-processed first, and
    then the run raises what the media file raised. *)
Theorem audio_read_error_ends_run
    self VideoFileClip data_file label_file rows names ts clip track t0 t1
    k st en inp out v e :
  read_file (labelfile_reader self) label_file = Ok (rows, names) ->
  Np.array2 rows = Ok rows ->
  Np.column0 rows = Ok ts ->
  VideoFileClip data_file = Ok clip ->
  audio clip = Some track ->
  ts !! 0%nat = Some t0 ->
  ts !! 1%nat = Some t1 ->
  ts !! k = Some st ->
  ts !! (k + 1)%nat = Some en ->
  let blk := block self clip ts (window (fps self) t0 t1)
                   (window (sr self) t0 t1) in
  (forall i, (i < k)%nat -> exists b, outcome (blk i) = Ok b) ->
  detector_input clip ts (window (fps self) t0 t1) k = Ok inp ->
  outcome (post_process self inp) = Ok out ->
  Np.transpose_0312 out = Ok v ->
  audio_frames track st en = Err e ->
  _get_samples self VideoFileClip data_file label_file
  = ([EvReadLabels label_file; EvOpenClip data_file;
      EvSetAudioFps (sr self); EvSetAudioFps (fps self)]
     ++ flat_map (fun i => calls (blk i)) (seq 0 k)
     ++ [EvVideoRange st en] ++ calls (post_process self inp)
     ++ [EvAudioRange st en],
     Err e).
Proof.
  intros Hread Harr Hts Hclip Htrack Ht0 Ht1 Hst Hen blk Hbefore Hinp Hout
         Hv Herr.
  assert (Hblk : blk k = ([EvVideoRange st en] ++ calls (post_process self inp)
                          ++ [EvAudioRange st en], Err e)).
  { unfold blk, block. unfold detector_input in Hinp.
    apply getitem_ok in Hst, Hen.
    rewrite Hst, Hen in Hinp. rewrite Hst, bind_lift_ok, Hen, bind_lift_ok.
    destruct (video_frames clip st en) as [frames |]; [| discriminate].
    rewrite bind_call_ok.
    destruct (Np.stack frames) as [arr |]; [| discriminate].
    rewrite bind_lift_ok, Hinp, bind_lift_ok.
    destruct (post_process self inp) as [pl r]. simpl in Hout. subst r.
    cbn [bind]. rewrite Hv, bind_lift_ok, Htrack, bind_lift_ok, Herr.
    simpl. reflexivity. }
  assert (Hlen : (k + 1 < length ts)%nat)
    by (eapply lookup_lt_Some; exact Hen).
  assert (Hek : outcome (blk k) = Err e) by (rewrite Hblk; reflexivity).
  rewrite (exception_in_interval_ends_run
             self VideoFileClip data_file label_file rows names ts clip
             track t0 t1 k e Hread Harr Hts Hclip Htrack Ht0 Ht1 Hlen
             Hbefore Hek).
  fold blk. rewrite Hblk. reflexivity.
Qed.

Lemma audio_read_error_ends_run_witness :
  let clip := {| video_frames := video_frames (Demo.clip 4 8);
                 audio := audio (Demo.clip_until (1 # 2) 4 8) |} in
  _get_samples
    (__init__ (Demo.face 99)
              (Demo.reader [[0; 1; 2]; [1 # 2; 3; 4]; [1; 5; 6]]%Q Demo.names)
              None 4 8)
    (fun _ => Ok clip) "v.mp4" "l.csv"
  = ([EvReadLabels "l.csv"; EvOpenClip "v.mp4"; EvSetAudioFps 8;
      EvSetAudioFps 4; EvVideoRange 0 (1 # 2);
      EvDetect (Array [2; 1; 1; 3]%nat (repeat 0%Q 6));
      EvAudioRange 0 (1 # 2); EvVideoRange (1 # 2) 1;
      EvDetect (Array [2; 1; 1; 3]%nat (repeat (1 # 2) 6));
      EvAudioRange (1 # 2) 1],
     Err (Raised "end of file")).
Proof.
  intros clip.
  refine (audio_read_error_ends_run
            (__init__ (Demo.face 99)
                      (Demo.reader [[0; 1; 2]; [1 # 2; 3; 4]; [1; 5; 6]]%Q
                                   Demo.names)
                      None 4 8)
            (fun _ => Ok clip) "v.mp4" "l.csv"
            [[0; 1; 2]; [1 # 2; 3; 4]; [1; 5; 6]]%Q Demo.names
            [0; 1 # 2; 1]%Q clip _ 0%Q (1 # 2)%Q
            1%nat (1 # 2)%Q 1%Q
            (Array [2; 1; 1; 3]%nat (repeat (1 # 2) 6))
            (Array [2; 2; 2; 3]%nat (repeat 1%Q 24)) _
            (Raised "end of file")
            eq_refl eq_refl eq_refl eq_refl eq_refl eq_refl eq_refl eq_refl
            eq_refl _ eq_refl eq_refl eq_refl eq_refl).
  intros i Hi. assert (i = 0%nat) as -> by lia.
  eexists. vm_compute. reflexivity.
Defined.

(** ** The order of the reads *)

Lemma filter_flat_map {A B} (p : B -> bool) (f : A -> list B) l :
  List.filter p (flat_map f l) = flat_map (fun i => List.filter p (f i)) l.
Proof.
  induction l as [| i l IH]; simpl; [reflexivity |].
  rewrite List.filter_app, IH. reflexivity.
Qed.

Lemma post_process_no_range self a :
  List.filter is_range (calls (post_process self a)) = [].
Proof.
  unfold post_process, try_except, call.
  destruct (detector self) as [d |]; [| reflexivity].
  destruct (extract_and_resize_face d a); [reflexivity |].
  destruct (resize d !! 0%nat); reflexivity.
Qed.

Lemma lookup_nth {A} (l : list A) i x d : l !! i = Some x -> nth i l d = x.
Proof.
  revert i. induction l as [| y l IH]; intros [| i]; simpl; try discriminate.
  - intros [= ->]. reflexivity.
  - apply IH.
Qed.

(** The reads of a returning run.  The intervals between consecutive
    timestamps are read in the order of the label table, each one once for
    its frames and then once for its audio, and nothing else is read. *)
Theorem ranges_are_read_once_in_order
    self VideoFileClip data_file label_file log s rows names :
  _get_samples self VideoFileClip data_file label_file = (log, Ok s) ->
  read_file (labelfile_reader self) label_file = Ok (rows, names) ->
  let ts := timestamps_of rows in
  List.filter is_range log
  = flat_map (fun i => [EvVideoRange (nth i ts 0%Q) (nth (i + 1) ts 0%Q);
                        EvAudioRange (nth i ts 0%Q) (nth (i + 1) ts 0%Q)])
             (seq 0 (length rows - 1)).
Proof.
  intros H Hread ts. apply get_samples_ok in H.
  destruct H as (rows' & ts' & clip & track & t0 & t1 & blog & bs & Hr & Hts
                 & _ & _ & _ & _ & Hbs & _ & _ & _ & _ & _ & ->).
  rewrite Hread in Hr. injection Hr as <- _.
  apply column0_ok in Hts. destruct Hts as [-> Hlen].
  fold (timestamps_of rows) in *. fold ts in Hbs, Hlen.
  apply mapM_ok in Hbs. destruct Hbs as [Hall ->].
  rewrite List.filter_app, filter_flat_map. simpl.
  unfold range. rewrite Hlen.
  replace (Z.to_nat (Z.of_nat (length rows) - 1)) with (length rows - 1)%nat
    by lia.
  apply flat_map_ext_In. intros i Hi.
  apply list_elem_of_In, list_elem_of_lookup in Hi. destruct Hi as [j Hj].
  assert (j = i) as -> by (apply lookup_seq in Hj; lia).
  unfold range in Hall. rewrite Hlen in Hall.
  replace (Z.to_nat (Z.of_nat (length rows) - 1)) with (length rows - 1)%nat
    in Hall by lia.
  destruct (Forall2_lookup_l _ _ _ _ _ Hall Hj) as ([v au] & _ & Hb).
  apply block_ok in Hb.
  destruct Hb as (st & en & frames & arr & inp & out & tr & arows & means
                  & Hst & Hen & _ & _ & _ & _ & _ & _ & _ & _ & _ & ->).
  rewrite !List.filter_app, post_process_no_range. simpl.
  rewrite (lookup_nth _ _ _ 0%Q Hst), (lookup_nth _ _ _ 0%Q Hen).
  reflexivity.
Qed.

Lemma ranges_are_read_once_in_order_witness :
  exists log s,
    _get_samples
      (__init__ (Demo.face 99)
                (Demo.reader [[0; 1; 2]; [1 # 2; 3; 4]; [2; 5; 6]]%Q Demo.names)
                None 4 8)
      (fun _ => Ok (Demo.clip 4 8)) "v.mp4" "l.csv" = (log, Ok s) /\
    List.filter is_range log
    = [EvVideoRange 0 (1 # 2); EvAudioRange 0 (1 # 2);
       EvVideoRange (1 # 2) 2; EvAudioRange (1 # 2) 2].
Proof.
  eassert (E : _get_samples
                 (__init__ (Demo.face 99)
                           (Demo.reader
                              [[0; 1; 2]; [1 # 2; 3; 4]; [2; 5; 6]]%Q
                              Demo.names)
                           None 4 8)
                 (fun _ => Ok (Demo.clip 4 8)) "v.mp4" "l.csv" = (_, Ok _))
    by (vm_compute; reflexivity).
  do 2 eexists. split; [exact E |].
  exact (ranges_are_read_once_in_order _ _ _ _ _ _
           [[0; 1; 2]; [1 # 2; 3; 4]; [2; 5; 6]]%Q Demo.names E eq_refl).
Defined.

(** ** Nothing is longer than its window *)

Lemma post_process_calls_sub self inp ev :
  In ev (calls (post_process self inp)) -> ev = EvDetect inp.
Proof.
  unfold post_process, try_except, call.
  destruct (detector self) as [d |]; [| contradiction].
  destruct (extract_and_resize_face d inp); simpl.
  - intros [<- | []]. reflexivity.
  - destruct (resize d !! 0%nat); simpl; intros [<- | []]; reflexivity.
Qed.






(** The audio tensor a run returns is a regular array. *)
Lemma get_samples_audio_array
    self VideoFileClip data_file label_file log s :
  _get_samples self VideoFileClip data_file label_file = (log, Ok s) ->
  Np.array2 (audio_tensor s) = Ok (audio_tensor s).
Proof.
  unfold _get_samples. intros H.
  step_call H rn Hread. destruct rn as [rows names].
  step_lift H a Ha. step_lift H ts Hts. step_call H clip Hclip.
  step_lift H track Htrack. step_call H u1 Hu1. step_call H u2 Hu2.
  step_lift H t1 Ht1. step_lift H t0 Ht0.
  apply bind_ok in H. destruct H as (blog & [vs aus] & ? & Hloop & H & ->).
  step_lift H vt Hvt. step_lift H at_ Hat.
  apply ret_ok in H. destruct H as [<- _]. simpl.
  pose proof (array2_ok _ _ Hat) as ->. exact Hat.
Qed.

Lemma array2_uniform (l : list (list Q)) r1 r2 :
  Np.array2 l = Ok l -> In r1 l -> In r2 l -> length r1 = length r2.
Proof.
  destruct l as [| r rest]; simpl; [contradiction |].
  destruct (forallb _ rest) eqn:Hall; [| discriminate]. intros _.
  rewrite forallb_forall in Hall.
  assert (Hr : forall x, r = x \/ In x rest -> length x = length r).
  { intros x [<- | Hx]; [reflexivity |].
    specialize (Hall x Hx). apply bool_decide_eq_true in Hall. exact Hall. }
  intros H1 H2. rewrite (Hr r1 H1), (Hr r2 H2). reflexivity.
Qed.

(** The audio blocks of a returning run all have one length, which is at
    most the audio window (when the window is not negative): a block is cut,
    never padded. *)
Theorem audio_blocks_within_window
    self VideoFileClip data_file label_file log s :
  _get_samples self VideoFileClip data_file label_file = (log, Ok s) ->
  (0 <= fst (num_samples s))%Z ->
  (forall row, In row (audio_tensor s) ->
               (length row <= Z.to_nat (fst (num_samples s)))%nat) /\
  (forall r1 r2, In r1 (audio_tensor s) -> In r2 (audio_tensor s) ->
                 length r1 = length r2).
Proof.
  intros H Hpos. split.
  - intros row Hrow.
    apply list_elem_of_In, list_elem_of_lookup in Hrow.
    destruct Hrow as [i Hi].
    destruct (get_samples_blocks _ _ _ _ _ _ H)
      as (clip & ts & blocks & _ & _ & Hlen & _ & Hblocks).
    assert (Hv : exists v, blocks !! i = Some v).
    { apply lookup_lt_is_Some. rewrite Hlen. eapply lookup_lt_Some; eauto. }
    destruct Hv as [v Hv].
    destruct (Hblocks i v Hv) as (au & Hau & Hb & _).
    rewrite Hi in Hau. injection Hau as <-.
    apply block_ok in Hb.
    destruct Hb as (st & en & frames & arr & inp & out & tr & arows & means
                    & _ & _ & _ & _ & _ & _ & _ & _ & _ & _ & -> & _).
    rewrite slice_to_nonneg by exact Hpos.
    rewrite length_firstn. lia.
  - intros r1 r2. apply array2_uniform.
    apply (get_samples_audio_array _ _ _ _ _ _ H).
Qed.

Lemma audio_blocks_within_window_witness :
  exists s,
    (forall row, In row (audio_tensor s) -> (length row <= 4)%nat) /\
    (forall r1 r2, In r1 (audio_tensor s) -> In r2 (audio_tensor s) ->
                   length r1 = length r2).
Proof.
  eassert (E : _get_samples
                 (__init__ (Demo.face 99)
                           (Demo.reader
                              [[0; 1; 2]; [1 # 2; 3; 4]; [2; 5; 6]]%Q
                              Demo.names)
                           None 4 8)
                 (fun _ => Ok (Demo.clip 4 8)) "v.mp4" "l.csv" = (_, Ok _))
    by (vm_compute; reflexivity).
  eexists.
  apply (audio_blocks_within_window _ _ _ _ _ _ E). simpl. lia.
Defined.

(** ** The window of an almost integral product *)






(** ** What a failure of the detector does to the visual tensor *)

(** The block a call to the detector ended in. *)
Lemma detect_event_block
    self VideoFileClip data_file label_file log s a :
  _get_samples self VideoFileClip data_file label_file = (log, Ok s) ->
  In (EvDetect a) log ->
  exists blocks i v out,
    Np.stack blocks = Ok (visual_tensor s) /\
    length blocks = length (audio_tensor s) /\
    blocks !! i = Some v /\
    outcome (post_process self a) = Ok out /\
    Np.transpose_0312 out = Ok v.
Proof.
  intros H Hin. apply get_samples_ok in H.
  destruct H as (rows & ts & clip & track & t0 & t1 & blog & bs & _ & _
                 & _ & _ & _ & _ & Hbs & Hst & Hau & _ & _ & _ & ->).
  apply mapM_ok in Hbs. destruct Hbs as [Hall ->].
  apply in_app_or in Hin. destruct Hin as [Hin | Hin].
  { simpl in Hin. repeat (destruct Hin as [Hin | Hin]; try discriminate).
    contradiction. }
  apply List.in_flat_map in Hin. destruct Hin as (i & Hi & Hin).
  apply list_elem_of_In, list_elem_of_lookup in Hi. destruct Hi as [j Hj].
  destruct (Forall2_lookup_l _ _ _ _ _ Hall Hj) as ([v au] & Hbj & Hb).
  apply block_ok in Hb.
  destruct Hb as (st & en & frames & arr & inp & out & tr & arows & means
                  & _ & _ & _ & _ & _ & Hout & Hv & _ & _ & _ & _ & Hcalls).
  rewrite Hcalls in Hin. simpl in Hin.
  destruct Hin as [Hin | Hin]; [discriminate |].
  apply in_app_or in Hin. destruct Hin as [Hin | Hin].
  - apply post_process_calls_sub in Hin. injection Hin as ->.
    exists (map fst bs), j, v, out.
    rewrite Hau, !length_map, lookup_map, Hbj. auto.
  - simpl in Hin. destruct Hin as [Hin | []]. discriminate.
Qed.

(** A run in which the detector raised on some interval returns only if
    every entry of the visual tensor has the shape of the block of zeros,
    one frame of [R] by [R] points: the block of zeros is stacked with the
    other blocks as it is, and blocks of different shapes do not stack. *)
Theorem detector_failure_forces_fallback_shape
    self VideoFileClip data_file label_file log s d a e R :
  _get_samples self VideoFileClip data_file label_file = (log, Ok s) ->
  detector self = Some d ->
  In (EvDetect a) log ->
  extract_and_resize_face d a = Err e ->
  resize d !! 0%nat = Some R ->
  shape (visual_tensor s) = [length (audio_tensor s); 1; 3; R; R]%nat.
Proof.
  intros H Hd Hin He HR.
  destruct (detect_event_block _ _ _ _ _ _ _ H Hin)
    as (blocks & i & v & out & Hst & Hlen & Hv & Hout & Htr).
  rewrite (post_process_fallback self d a e R Hd He HR) in Hout.
  injection Hout as <-. rewrite transpose_zeros in Htr. injection Htr as <-.
  rewrite (stack_entries blocks _ (fallback_block R) Hst), Hlen;
    [reflexivity |].
  apply list_elem_of_In, list_elem_of_lookup. eauto.
Qed.

Lemma detector_failure_forces_fallback_shape_witness :
  exists s,
    outcome (_get_samples
               (__init__ (Demo.face 0)
                         (Demo.reader
                            [[0; 1; 2]; [1 # 4; 3; 4]; [1 # 2; 5; 6]]%Q
                            Demo.names)
                         None 4 8)
               (fun _ => Ok (Demo.clip 4 8)) "v.mp4" "l.csv") = Ok s /\
    shape (visual_tensor s) = [2; 1; 3; 2; 2]%nat.
Proof.
  eassert (E : _get_samples
                 (__init__ (Demo.face 0)
                           (Demo.reader
                              [[0; 1; 2]; [1 # 4; 3; 4]; [1 # 2; 5; 6]]%Q
                              Demo.names)
                           None 4 8)
                 (fun _ => Ok (Demo.clip 4 8)) "v.mp4" "l.csv" = (_, Ok _))
    by (vm_compute; reflexivity).
  eexists. split; [rewrite E; reflexivity |].
  refine (detector_failure_forces_fallback_shape _ _ _ _ _ _
            (Demo.face 0) (Array [1; 1; 1; 3]%nat (repeat 0%Q 3))
            (Raised "no face") 2%nat E eq_refl _ eq_refl eq_refl).
  simpl. do 5 right. left. reflexivity.
Defined.

Lemma stack_data l a : Np.stack l = Ok a -> data a = concat (map data l).
Proof.
  destruct l as [| x rest]; simpl.
  - intros [= <-]. reflexivity.
  - destruct (forallb _ rest); [| discriminate]. intros [= <-]. reflexivity.
Qed.

(** When the detector raises on every interval, the run returns a visual
    tensor of zeros, one frame of [R] by [R] points for every interval. *)
Theorem detector_failing_everywhere_gives_zeros
    self VideoFileClip data_file label_file log s d R :
  _get_samples self VideoFileClip data_file label_file = (log, Ok s) ->
  detector self = Some d ->
  resize d !! 0%nat = Some R ->
  (forall a, In (EvDetect a) log ->
             exists e, extract_and_resize_face d a = Err e) ->
  shape (visual_tensor s) = [length (audio_tensor s); 1; 3; R; R]%nat /\
  Forall (fun x => x = 0%Q) (data (visual_tensor s)).
Proof.
  intros H Hd HR Hfail.
  destruct (get_samples_blocks _ _ _ _ _ _ H)
    as (clip & ts & blocks & _ & Hst & Hlen & Hne & Hblocks).
  assert (Hall : forall v, In v blocks -> v = fallback_block R).
  { intros v Hv. apply list_elem_of_In, list_elem_of_lookup in Hv.
    destruct Hv as [i Hi]. destruct (Hblocks i v Hi) as (au & _ & Hb & Hin).
    apply block_ok in Hb.
    destruct Hb as (st & en & frames & arr & inp & out & tr & arows & means
                    & _ & _ & _ & _ & _ & Hout & Htr & _ & _ & _ & _
                    & Hcalls).
    rewrite Hcalls, (post_process_calls self d inp Hd) in Hin.
    destruct (Hfail inp) as [e He]; [apply Hin; simpl; auto |].
    rewrite (post_process_fallback self d inp e R Hd He HR) in Hout.
    injection Hout as <-. rewrite transpose_zeros in Htr.
    injection Htr as <-. reflexivity. }
  split.
  - destruct blocks as [| v rest] eqn:Eb; [simpl in Hne; lia |].
    rewrite <- Eb in *.
    assert (Hv : In v blocks) by (rewrite Eb; left; reflexivity).
    rewrite (stack_entries blocks _ v Hst Hv), Hlen, (Hall v Hv).
    reflexivity.
  - rewrite (stack_data _ _ Hst). apply List.Forall_forall. intros x Hx.
    apply in_concat in Hx. destruct Hx as (dv & Hdv & Hx).
    apply List.in_map_iff in Hdv. destruct Hdv as (v & <- & Hv).
    rewrite (Hall v Hv) in Hx.
    pose proof (fallback_block_zeros R) as Hz.
    rewrite List.Forall_forall in Hz. apply Hz. exact Hx.
Qed.

Lemma detector_failing_everywhere_gives_zeros_witness :
  exists s,
    outcome (_get_samples
               (__init__ (Demo.face 0)
                         (Demo.reader
                            [[0; 1; 2]; [1 # 2; 3; 4]; [1; 5; 6]]%Q
                            Demo.names)
                         (Some {| extract_and_resize_face _ :=
                                    Err (Raised "no face");
                                  resize := [2; 2]%nat |}) 4 8)
               (fun _ => Ok (Demo.clip 4 8)) "v.mp4" "l.csv") = Ok s /\
    shape (visual_tensor s) = [2; 1; 3; 2; 2]%nat /\
    Forall (fun x => x = 0%Q) (data (visual_tensor s)).
Proof.
  eassert (E : _get_samples
                 (__init__ (Demo.face 0)
                           (Demo.reader
                              [[0; 1; 2]; [1 # 2; 3; 4]; [1; 5; 6]]%Q
                              Demo.names)
                           (Some {| extract_and_resize_face _ :=
                                      Err (Raised "no face");
                                    resize := [2; 2]%nat |}) 4 8)
                 (fun _ => Ok (Demo.clip 4 8)) "v.mp4" "l.csv" = (_, Ok _))
    by (vm_compute; reflexivity).
  eexists. split; [rewrite E; reflexivity |].
  refine (detector_failing_everywhere_gives_zeros _ _ _ _ _ _
            {| extract_and_resize_face _ := Err (Raised "no face");
               resize := [2; 2]%nat |} 2%nat E eq_refl eq_refl _).
  intros a _. eexists. reflexivity.
Defined.

(** ** The container after [serialize_samples] *)

Lemma create_dataset_ok name v w w' :
  create_dataset name v w = Ok w' ->
  datasets w !! name = None /\
  datasets w' = <[name := v]> (datasets w) /\
  attrs w' = attrs w.
Proof.
  unfold create_dataset. destruct (datasets w !! name); [discriminate |].
  intros [= <-]. auto.
Qed.

(** What a returning [serialize_samples] went through. *)
Lemma serialize_ok
    self VideoFileClip writer data_file label_file log w' :
  serialize_samples self VideoFileClip writer data_file label_file
  = (log, Ok w') ->
  exists s,
    _get_samples self VideoFileClip data_file label_file = (log, Ok s) /\
    (datasets writer !! "audio" = None /\
     datasets writer !! "visual" = None /\
     datasets writer !! "labels" = None) /\
    datasets w'
    = <["labels" := H5Table (labels s)]>
        (<["visual" := H5Array (visual_tensor s)]>
           (<["audio" := H5Table (audio_tensor s)]> (datasets writer))) /\
    attrs w'
    = <["label_names" := H5Strs (tail (attrs_name s))]>
        (<["num_samples" :=
             H5Ints [fst (num_samples s); snd (num_samples s)]]>
           (<["seq_num" := H5Int (seq_num s)]>
              (<["label_file" := H5Str label_file]>
                 (<["data_file" := H5Str data_file]> (attrs writer))))).
Proof.
  unfold serialize_samples. intros H.
  apply bind_ok in H. destruct H as (lg & s & ? & Hs & H & ->).
  destruct (num_samples s) as [an vn] eqn:Hns.
  step_lift H w1 H1. step_lift H w2 H2. step_lift H w3 H3.
  apply ret_ok in H. destruct H as [<- ->].
  apply create_dataset_ok in H1, H2, H3.
  destruct H1 as (F1 & D1 & A1), H2 as (F2 & D2 & A2), H3 as (F3 & D3 & A3).
  rewrite D1 in F2, D2. rewrite D2 in F3, D3.
  rewrite lookup_insert_ne in F2 by discriminate.
  rewrite !lookup_insert_ne in F3 by discriminate.
  exists s. rewrite !app_nil_r, Hns. split; [exact Hs |].
  split; [auto |]. unfold set_attr. simpl. rewrite D3, A3, A2, A1. auto.
Qed.

(** A returning [serialize_samples] makes the calls of the aligner and no
    other.  The three names of its arrays were free in the container; it
    stores under them the tensors the aligner returned, and under their
    names the two file names, [seq_num] and the two windows; every other
    array and attribute of the container is as before. *)
Theorem serialize_stores_the_run
    self VideoFileClip writer data_file label_file log w' :
  serialize_samples self VideoFileClip writer data_file label_file
  = (log, Ok w') ->
  exists s,
    _get_samples self VideoFileClip data_file label_file = (log, Ok s) /\
    (datasets writer !! "audio" = None /\
     datasets writer !! "visual" = None /\
     datasets writer !! "labels" = None) /\
    (datasets w' !! "audio" = Some (H5Table (audio_tensor s)) /\
     datasets w' !! "visual" = Some (H5Array (visual_tensor s)) /\
     datasets w' !! "labels" = Some (H5Table (labels s))) /\
    (attrs w' !! "data_file" = Some (H5Str data_file) /\
     attrs w' !! "label_file" = Some (H5Str label_file) /\
     attrs w' !! "seq_num" = Some (H5Int (seq_num s)) /\
     attrs w' !! "num_samples"
     = Some (H5Ints [fst (num_samples s); snd (num_samples s)])) /\
    (forall k, ~ In k ["audio"; "visual"; "labels"]%string ->
               datasets w' !! k = datasets writer !! k) /\
    (forall k, ~ In k ["data_file"; "label_file"; "seq_num"; "num_samples";
                       "label_names"]%string ->
               attrs w' !! k = attrs writer !! k).
Proof.
  intros H. destruct (serialize_ok _ _ _ _ _ _ _ H)
    as (s & Hs & Hfree & -> & ->).
  exists s. split; [exact Hs |]. split; [exact Hfree |].
  split; [| split; [| split]].
  - repeat split.
    + rewrite !lookup_insert_ne by discriminate. apply lookup_insert_eq.
    + rewrite lookup_insert_ne by discriminate. apply lookup_insert_eq.
    + apply lookup_insert_eq.
  - repeat split.
    + rewrite !lookup_insert_ne by discriminate. apply lookup_insert_eq.
    + rewrite !lookup_insert_ne by discriminate. apply lookup_insert_eq.
    + rewrite !lookup_insert_ne by discriminate. apply lookup_insert_eq.
    + rewrite lookup_insert_ne by discriminate. apply lookup_insert_eq.
  - intros k Hk. simpl in Hk.
    rewrite !lookup_insert_ne by (intros <-; apply Hk; auto). reflexivity.
  - intros k Hk. simpl in Hk.
    rewrite !lookup_insert_ne by (intros <-; apply Hk; auto 10).
    reflexivity.
Qed.

Lemma serialize_stores_the_run_witness :
  exists log w' s,
    serialize_samples
      (__init__ (Demo.face 99)
                (Demo.reader [[0; 1; 2]; [1 # 2; 3; 4]]%Q Demo.names)
                None 4 8)
      (fun _ => Ok (Demo.clip 4 8))
      {| datasets := {[ "other"%string := H5Int 1 ]};
         attrs := {[ "owner"%string := H5Str "lab" ]} |}
      "v.mp4" "l.csv" = (log, Ok w') /\
    _get_samples
      (__init__ (Demo.face 99)
                (Demo.reader [[0; 1; 2]; [1 # 2; 3; 4]]%Q Demo.names)
                None 4 8)
      (fun _ => Ok (Demo.clip 4 8)) "v.mp4" "l.csv" = (log, Ok s) /\
    datasets w' !! "labels" = Some (H5Table (labels s)) /\
    attrs w' !! "seq_num" = Some (H5Int (seq_num s)) /\
    datasets w' !! "other" = Some (H5Int 1) /\
    attrs w' !! "owner" = Some (H5Str "lab").
Proof.
  eassert (E : serialize_samples
                 (__init__ (Demo.face 99)
                           (Demo.reader [[0; 1; 2]; [1 # 2; 3; 4]]%Q
                                        Demo.names)
                           None 4 8)
                 (fun _ => Ok (Demo.clip 4 8))
                 {| datasets := {[ "other"%string := H5Int 1 ]};
                    attrs := {[ "owner"%string := H5Str "lab" ]} |}
                 "v.mp4" "l.csv" = (_, Ok _)).
  { unfold serialize_samples.
    match goal with
    | |- context [_get_samples ?g ?c ?d ?l] =>
        let r := eval vm_compute in (_get_samples g c d l) in
        replace (_get_samples g c d l) with r by (vm_compute; reflexivity)
    end.
    reflexivity. }
  destruct (serialize_stores_the_run _ _ _ _ _ _ _ E)
    as (s & Hs & _ & (_ & _ & Hl) & (_ & _ & Hq & _) & Hd & Ha).
  do 3 eexists. split; [exact E |]. split; [exact Hs |].
  split; [exact Hl |]. split; [exact Hq |]. split.
  - rewrite Hd; [apply lookup_singleton_eq |].
    simpl. intros [H | [H | [H | []]]]; discriminate.
  - rewrite Ha; [apply lookup_singleton_eq |].
    simpl. intros [H | [H | [H | [H | [H | []]]]]]; discriminate.
Defined.

(** A container is written once: [serialize_samples] on the container it has
    just filled runs the aligner again, and then raises [ValueError], for
    the array names are taken. *)
Theorem serialize_twice_raises
    self VideoFileClip writer data_file label_file log w' :
  serialize_samples self VideoFileClip writer data_file label_file
  = (log, Ok w') ->
  serialize_samples self VideoFileClip w' data_file label_file
  = (log, Err ValueError).
Proof.
  intros H.
  destruct (serialize_ok _ _ _ _ _ _ _ H) as (s & Hs & _ & Hd & _).
  assert (Hau : datasets w' !! "audio" = Some (H5Table (audio_tensor s))).
  { rewrite Hd, !lookup_insert_ne by discriminate. apply lookup_insert_eq. }
  unfold serialize_samples. rewrite Hs. cbn [bind].
  destruct (num_samples s) as [an vn].
  unfold create_dataset. rewrite Hau. simpl. rewrite app_nil_r.
  reflexivity.
Qed.

Lemma serialize_twice_raises_witness :
  exists log w',
    serialize_samples
      (__init__ (Demo.face 99)
                (Demo.reader [[0; 1; 2]; [1 # 2; 3; 4]]%Q Demo.names)
                None 4 8)
      (fun _ => Ok (Demo.clip 4 8))
      {| datasets := ∅; attrs := ∅ |} "v.mp4" "l.csv" = (log, Ok w') /\
    serialize_samples
      (__init__ (Demo.face 99)
                (Demo.reader [[0; 1; 2]; [1 # 2; 3; 4]]%Q Demo.names)
                None 4 8)
      (fun _ => Ok (Demo.clip 4 8)) w' "v.mp4" "l.csv"
    = (log, Err ValueError).
Proof.
  eassert (E : serialize_samples
                 (__init__ (Demo.face 99)
                           (Demo.reader [[0; 1; 2]; [1 # 2; 3; 4]]%Q
                                        Demo.names)
                           None 4 8)
                 (fun _ => Ok (Demo.clip 4 8))
                 {| datasets := ∅; attrs := ∅ |} "v.mp4" "l.csv" = (_, Ok _)).
  { unfold serialize_samples.
    match goal with
    | |- context [_get_samples ?g ?c ?d ?l] =>
        let r := eval vm_compute in (_get_samples g c d l) in
        replace (_get_samples g c d l) with r by (vm_compute; reflexivity)
    end.
    reflexivity. }
  do 2 eexists. split; [exact E |].
  exact (serialize_twice_raises _ _ _ _ _ _ _ E).
Defined.

Lemma in_removelast {A} (x : A) l : In x (removelast l) -> In x l.
Proof.
  induction l as [| y [| z l] IH]; simpl; [contradiction | contradiction |].
  intros [-> | H]; [left; reflexivity | right; apply IH; exact H].
Qed.

(** When the label reader gives one name for every column of its table, the
    stored [label_names] name the columns of the stored label matrix: every
    stored label vector has as many values as there are stored names. *)
Theorem label_names_match_label_columns
    self VideoFileClip writer data_file label_file log w' rows names :
  serialize_samples self VideoFileClip writer data_file label_file
  = (log, Ok w') ->
  read_file (labelfile_reader self) label_file = Ok (rows, names) ->
  (forall row, In row rows -> length row = length names) ->
  exists labs stored,
    datasets w' !! "labels" = Some (H5Table labs) /\
    attrs w' !! "label_names" = Some (H5Strs stored) /\
    forall lab, In lab labs -> length lab = length stored.
Proof.
  intros H Hread Hwidth.
  destruct (serialize_ok _ _ _ _ _ _ _ H) as (s & Hs & _ & -> & ->).
  apply get_samples_ok in Hs.
  destruct Hs as (rows' & ts & clip & track & t0 & t1 & blog & bs & Hr & _
                  & _ & _ & _ & _ & _ & _ & _ & Hl & _).
  rewrite Hread in Hr. injection Hr as <- Hn.
  exists (labels s), (tail (attrs_name s)).
  rewrite !lookup_insert_eq. split; [reflexivity |]. split; [reflexivity |].
  intros lab Hlab. rewrite Hl in Hlab.
  unfold Np.drop_last_row_first_col in Hlab.
  apply List.in_map_iff in Hlab. destruct Hlab as (row & <- & Hrow).
  apply in_removelast in Hrow. rewrite <- Hn.
  pose proof (Hwidth row Hrow) as Hw.
  destruct row, names; simpl in *; lia.
Qed.

Lemma label_names_match_label_columns_witness :
  exists w' labs stored,
    datasets w' !! "labels" = Some (H5Table labs) /\
    attrs w' !! "label_names" = Some (H5Strs stored) /\
    forall lab, In lab labs -> length lab = length stored.
Proof.
  eassert (E : serialize_samples
                 (__init__ (Demo.face 99)
                           (Demo.reader [[0; 1; 2]; [1 # 2; 3; 4]]%Q
                                        Demo.names)
                           None 4 8)
                 (fun _ => Ok (Demo.clip 4 8))
                 {| datasets := ∅; attrs := ∅ |} "v.mp4" "l.csv" = (_, Ok _)).
  { unfold serialize_samples.
    match goal with
    | |- context [_get_samples ?g ?c ?d ?l] =>
        let r := eval vm_compute in (_get_samples g c d l) in
        replace (_get_samples g c d l) with r by (vm_compute; reflexivity)
    end.
    reflexivity. }
  eexists.
  apply (label_names_match_label_columns _ _ _ _ _ _ _
           [[0; 1; 2]; [1 # 2; 3; 4]]%Q Demo.names E eq_refl).
  intros row Hrow. simpl in Hrow.
  destruct Hrow as [<- | [<- | []]]; reflexivity.
Defined.

(** ** The layout of the visual entries *)



(** ** A generator without a detector *)



(** ** An interval without audio *)

(** When the media file yields no audio sample for interval [k] (an interval
    of no duration, say), the run raises [AxisError]: the empty array of
    samples has one axis only, and line 87 takes the mean over the second.
    The frames of the interval have been read and post-processed by then. *)
Theorem interval_without_audio_raises
    self VideoFileClip data_file label_file rows names ts clip track t0 t1
    k st en inp out v :
  read_file (labelfile_reader self) label_file = Ok (rows, names) ->
  Np.array2 rows = Ok rows ->
  Np.column0 rows = Ok ts ->
  VideoFileClip data_file = Ok clip ->
  audio clip = Some track ->
  ts !! 0%nat = Some t0 ->
  ts !! 1%nat = Some t1 ->
  ts !! k = Some st ->
  ts !! (k + 1)%nat = Some en ->
  let blk := block self clip ts (window (fps self) t0 t1)
                   (window (sr self) t0 t1) in
  (forall i, (i < k)%nat -> exists b, outcome (blk i) = Ok b) ->
  detector_input clip ts (window (fps self) t0 t1) k = Ok inp ->
  outcome (post_process self inp) = Ok out ->
  Np.transpose_0312 out = Ok v ->
  audio_frames track st en = Ok [] ->
  _get_samples self VideoFileClip data_file label_file
  = ([EvReadLabels label_file; EvOpenClip data_file;
      EvSetAudioFps (sr self); EvSetAudioFps (fps self)]
     ++ flat_map (fun i => calls (blk i)) (seq 0 k)
     ++ [EvVideoRange st en] ++ calls (post_process self inp)
     ++ [EvAudioRange st en],
     Err AxisError).
Proof.
  intros Hread Harr Hts Hclip Htrack Ht0 Ht1 Hst Hen blk Hbefore Hinp Hout
         Hv Hnone.
  assert (Hblk : blk k = ([EvVideoRange st en] ++ calls (post_process self inp)
                          ++ [EvAudioRange st en], Err AxisError)).
  { unfold blk, block. unfold detector_input in Hinp.
    apply getitem_ok in Hst, Hen.
    rewrite Hst, Hen in Hinp. rewrite Hst, bind_lift_ok, Hen, bind_lift_ok.
    destruct (video_frames clip st en) as [frames |]; [| discriminate].
    rewrite bind_call_ok.
    destruct (Np.stack frames) as [arr |]; [| discriminate].
    rewrite bind_lift_ok, Hinp, bind_lift_ok.
    destruct (post_process self inp) as [pl r]. simpl in Hout. subst r.
    cbn [bind]. rewrite Hv, bind_lift_ok, Htrack, bind_lift_ok, Hnone.
    simpl. reflexivity. }
  assert (Hlen : (k + 1 < length ts)%nat)
    by (eapply lookup_lt_Some; exact Hen).
  assert (Hek : outcome (blk k) = Err AxisError)
    by (rewrite Hblk; reflexivity).
  rewrite (exception_in_interval_ends_run
             self VideoFileClip data_file label_file rows names ts clip
             track t0 t1 k AxisError Hread Harr Hts Hclip Htrack Ht0 Ht1 Hlen
             Hbefore Hek).
  fold blk. rewrite Hblk. reflexivity.
Qed.

Lemma interval_without_audio_raises_witness :
  outcome (_get_samples
             (__init__ (Demo.face 99)
                       (Demo.reader
                          [[0; 1; 2]; [1 # 2; 3; 4]; [1 # 2; 5; 6]]%Q
                          Demo.names)
                       None 4 8)
             (fun _ => Ok (Demo.clip 4 8)) "v.mp4" "l.csv")
  = Err AxisError.
Proof.
  assert (Hb : forall i, (i < 1)%nat ->
                 exists b,
                   outcome
                     (block (__init__ (Demo.face 99)
                                      (Demo.reader
                                         [[0; 1; 2]; [1 # 2; 3; 4];
                                          [1 # 2; 5; 6]]%Q Demo.names)
                                      None 4 8)
                            (Demo.clip 4 8) [0; 1 # 2; 1 # 2]%Q
                            (window 4 0 (1 # 2)) (window 8 0 (1 # 2)) i)
                   = Ok b).
  { intros i Hi. assert (i = 0%nat) as -> by lia.
    eexists. vm_compute. reflexivity. }
  rewrite (interval_without_audio_raises
             (__init__ (Demo.face 99)
                       (Demo.reader
                          [[0; 1; 2]; [1 # 2; 3; 4]; [1 # 2; 5; 6]]%Q
                          Demo.names)
                       None 4 8)
             (fun _ => Ok (Demo.clip 4 8)) "v.mp4" "l.csv"
             [[0; 1; 2]; [1 # 2; 3; 4]; [1 # 2; 5; 6]]%Q Demo.names
             [0; 1 # 2; 1 # 2]%Q (Demo.clip 4 8)
             {| audio_frames s e :=
                  Ok (repeat [s; (s + 2)%Q]
                             (Z.to_nat (Num.int (inject_Z 8 * (e - s))))) |}
             0%Q (1 # 2)%Q 1%nat (1 # 2)%Q (1 # 2)%Q
             (Array [0]%nat []) (Np.zeros [1; 2; 2; 3]%nat)
             (fallback_block 2)
             eq_refl eq_refl eq_refl eq_refl eq_refl eq_refl eq_refl eq_refl
             eq_refl Hb eq_refl eq_refl eq_refl eq_refl).
  reflexivity.
Defined.
